(** * Project-specific settings of the Blender Cloud add-on

    A shallow embedding of [blender_cloud/project_specific.py]: the
    [store] and [handle_project_update] callbacks that save and restore
    per-project, per-manager preferences, together with the part of the
    host's property system they rely on: ID properties with dict-like
    access, string and integer properties that take values of their own
    type only, and the [manager] enum of [FlamencoManagerGroup], whose
    items come from [available_managers] each time the enum is read or
    assigned. *)

From stdpp Require Import gmap strings list fin_maps.
From Stdlib Require Import ZArith.

#[local] Set Warnings "-register-all".
#[local] Open Scope string_scope.
#[local] Open Scope list_scope.

(** ** Python values *)

(** The values that travel between the preferences and the ID properties:
    [None], strings, integers, lists and string-keyed mappings (a Python
    [dict] or an [IDPropertyGroup]; ID property names are strings). *)
Inductive value :=
  | VNone
  | VStr (s : string)
  | VInt (n : Z)
  | VList (l : list value)
  | VDict (d : gmap string value).

(** The exceptions the module can meet. *)
Inductive exn := KeyError | TypeError | AttributeError.

Inductive result (A : Type) :=
  | Ok (a : A)
  | Raise (e : exn).
Arguments Ok {A} a.
Arguments Raise {A} e.

#[global] Instance exn_eq_dec : EqDecision exn.
Proof. solve_decision. Defined.

#[global] Instance result_ret : MRet result := λ A a, Ok a.
#[global] Instance result_bind : MBind result := λ A B f r,
  match r with
  | Ok a => f a
  | Raise e => Raise e
  end.

(** [bool(v)]: empty containers, the empty string, zero and [None] are
    false. *)
Definition truthy (v : value) : bool :=
  match v with
  | VNone => false
  | VStr s => negb (String.eqb s "")
  | VInt n => negb (Z.eqb n 0)
  | VList l => match l with [] => false | _ :: _ => true end
  | VDict d => match map_to_list d with [] => false | _ :: _ => true end
  end.

(** [v.get(k, dflt)]; only mappings have a [get] method. *)
Definition py_get (v : value) (k : string) (dflt : value) : result value :=
  match v with
  | VDict d => Ok (default dflt (d !! k))
  | _ => Raise AttributeError
  end.

(** [v[k]] for a string [k]. *)
Definition py_getitem (v : value) (k : string) : result value :=
  match v with
  | VDict d => match d !! k with Some x => Ok x | None => Raise KeyError end
  | _ => Raise TypeError
  end.

(** [v[k] = x] for a string [k]. *)
Definition py_setitem (v : value) (k : string) (x : value) : result value :=
  match v with
  | VDict d => Ok (VDict (<[k := x]> d))
  | _ => Raise TypeError
  end.

Fixpoint is_prefix (p s : string) : bool :=
  match p, s with
  | EmptyString, _ => true
  | String a p', String b s' => Ascii.eqb a b && is_prefix p' s'
  | String _ _, EmptyString => false
  end.

Fixpoint is_substring (p s : string) : bool :=
  is_prefix p s ||
  match s with
  | EmptyString => false
  | String _ s' => is_substring p s'
  end.

(** [k in v] for a string [k]: key membership for a mapping, element
    membership for a list, substring test for a string. *)
Definition py_contains (k : string) (v : value) : result bool :=
  match v with
  | VDict d => Ok (bool_decide (is_Some (d !! k)))
  | VList l =>
      Ok (existsb (λ x, match x with VStr s => String.eqb s k | _ => false end) l)
  | VStr s => Ok (is_substring k s)
  | VNone | VInt _ => Raise TypeError
  end.

(** Reading a nested mapping along a path of keys, for stating what is
    saved where. *)
Fixpoint lookup_path (v : value) (path : list string) : option value :=
  match path with
  | [] => Some v
  | k :: rest =>
      match v with
      | VDict d => d !! k ≫= λ x, lookup_path x rest
      | _ => None
      end
  end.

(** ** The host's preference object *)

(** [FlamencoManagerGroup]. For the [manager] enum, whose items are
    computed by a callback, the host keeps the position of the selected
    item, not its identifier: [manager_index]. [status] is an enum over
    three fixed items, kept by identifier. The list of managers lives in
    the group's ID property ['available_managers'], read with the default
    [[]]. *)
Record FlamencoManagerGroup := {
  manager_index : nat;
  status : string;
  available_managers : value;
}.

(** [BlenderCloudPreferences] as [project_specific] sees it. The three
    Flamenco job settings and [flamenco_manager] are the properties the
    class declares: two [StringProperty] and an [IntProperty] with
    [min=0], which hold a string, a string and a number that is never
    negative. Integers are not bounded in the model: the code computes
    nothing with them.
    - [project] is [prefs.project.project];
    - [attrs] are the properties reached by name through [getattr],
      [setattr] and [hasattr];
    - [idprops] are the ID properties reached through [prefs.get(...)]
      and [prefs[...]]. *)
Record BlenderCloudPreferences := {
  project : string;
  attrs : gmap string value;
  flamenco_manager : FlamencoManagerGroup;
  flamenco_job_file_path : string;
  flamenco_job_output_path : string;
  flamenco_job_output_strip_components : N;
  idprops : gmap string value;
}.

Definition set_attr (name : string) (v : value) (p : BlenderCloudPreferences)
  : BlenderCloudPreferences :=
  {| project := project p;
     attrs := <[name := v]> (attrs p);
     flamenco_manager := flamenco_manager p;
     flamenco_job_file_path := flamenco_job_file_path p;
     flamenco_job_output_path := flamenco_job_output_path p;
     flamenco_job_output_strip_components := flamenco_job_output_strip_components p;
     idprops := idprops p |}.

Definition set_flamenco_manager (g : FlamencoManagerGroup) (p : BlenderCloudPreferences)
  : BlenderCloudPreferences :=
  {| project := project p;
     attrs := attrs p;
     flamenco_manager := g;
     flamenco_job_file_path := flamenco_job_file_path p;
     flamenco_job_output_path := flamenco_job_output_path p;
     flamenco_job_output_strip_components := flamenco_job_output_strip_components p;
     idprops := idprops p |}.

Definition set_flamenco_job_file_path (v : string) (p : BlenderCloudPreferences)
  : BlenderCloudPreferences :=
  {| project := project p;
     attrs := attrs p;
     flamenco_manager := flamenco_manager p;
     flamenco_job_file_path := v;
     flamenco_job_output_path := flamenco_job_output_path p;
     flamenco_job_output_strip_components := flamenco_job_output_strip_components p;
     idprops := idprops p |}.

Definition set_flamenco_job_output_path (v : string) (p : BlenderCloudPreferences)
  : BlenderCloudPreferences :=
  {| project := project p;
     attrs := attrs p;
     flamenco_manager := flamenco_manager p;
     flamenco_job_file_path := flamenco_job_file_path p;
     flamenco_job_output_path := v;
     flamenco_job_output_strip_components := flamenco_job_output_strip_components p;
     idprops := idprops p |}.

Definition set_flamenco_job_output_strip_components (v : N)
    (p : BlenderCloudPreferences) : BlenderCloudPreferences :=
  {| project := project p;
     attrs := attrs p;
     flamenco_manager := flamenco_manager p;
     flamenco_job_file_path := flamenco_job_file_path p;
     flamenco_job_output_path := flamenco_job_output_path p;
     flamenco_job_output_strip_components := v;
     idprops := idprops p |}.

Definition set_idprop (k : string) (v : value) (p : BlenderCloudPreferences)
  : BlenderCloudPreferences :=
  {| project := project p;
     attrs := attrs p;
     flamenco_manager := flamenco_manager p;
     flamenco_job_file_path := flamenco_job_file_path p;
     flamenco_job_output_path := flamenco_job_output_path p;
     flamenco_job_output_strip_components := flamenco_job_output_strip_components p;
     idprops := <[k := v]> (idprops p) |}.

(** [prefs.get(k, dflt)] on the ID properties. *)
Definition prefs_get (p : BlenderCloudPreferences) (k : string) (dflt : value) : value :=
  default dflt (idprops p !! k).

(** *** The [manager] enum *)

(** An enum item: identifier, name, description. *)
Definition enum_item : Type := string * string * string.

Definition item_id (it : enum_item) : string := it.1.1.

(** One element [p] of the managers list as the item
    [(p['_id'], p['name'], '')]; [None] when the element has no such keys
    or they do not hold strings. *)
Definition manager_item (p : value) : option enum_item :=
  match p with
  | VDict d =>
      match d !! "_id", d !! "name" with
      | Some (VStr i), Some (VStr n) => Some (i, n, "")
      | _, _ => None
      end
  | _ => None
  end.

(** [flamenco.available_managers]: the items of the manager selector,
    from a managers list [mngrs]. [None] stands for a callback that
    fails. *)
Definition available_managers_cb (mngrs : value) : option (list enum_item) :=
  if negb (truthy mngrs) then
    Some [("", "No managers available in your Blender Cloud", "")]
  else
    match mngrs with
    | VList l => mapM manager_item l
    | _ => None
    end.

(** The identifiers of the enum's items, in order; a failing callback
    leaves the enum without items. *)
Definition manager_ids (mngrs : value) : list string :=
  item_id <$> default [] (available_managers_cb mngrs).

(** The position of the first item with identifier [s]. *)
Fixpoint enum_position (s : string) (ids : list string) : option nat :=
  match ids with
  | [] => None
  | i :: rest => if String.eqb i s then Some 0 else S <$> enum_position s rest
  end.

(** Assigning [v] to the enum: accepted when [v] is a string naming one of
    the current items, whose position is what the host keeps; refused,
    with a [TypeError], otherwise. An item with the empty identifier is a
    separator to the host, which nothing selects: the empty string is
    always refused. *)
Definition enum_set (mngrs : value) (v : value) : option nat :=
  match v with
  | VStr s => if String.eqb s "" then None else enum_position s (manager_ids mngrs)
  | _ => None
  end.

(** Reading the enum: the identifier of the item at the kept position
    among the current items, the empty string when there is no item at
    that position. *)
Definition enum_get (mngrs : value) (position : nat) : string :=
  default "" (manager_ids mngrs !! position).

(** [group.manager], read: through the managers the group holds now. *)
Definition manager (g : FlamencoManagerGroup) : string :=
  enum_get (available_managers g) (manager_index g).

(** ** Process state *)

Inductive extension := Attract | Flamenco.

(** What [handle_project_update] does to the world outside the
    preferences' values, in the order it does it. Informational and debug
    log lines are not recorded; the warning is. *)
Inductive event :=
  | EvCacheClear
  | EvDeactivate (m : extension)
  | EvProjectExtensions (project_id : string)
  | EvActivate (m : extension)
  | EvWrite (property : string)
  | EvLogWarning.

(** The module globals and the objects the callbacks reach:
    [project_settings_loading], the preferences, the memo table of
    [project_extensions], whether each feature module is active, and the
    history of events, each stamped with the value
    [project_settings_loading] had when it happened. *)
Record World := {
  prefs : BlenderCloudPreferences;
  project_settings_loading : bool;
  extensions_cache : gmap string (gset string);
  attract_active : bool;
  flamenco_active : bool;
  trace : list (bool * event);
}.

Definition set_prefs (p : BlenderCloudPreferences) (w : World) : World :=
  {| prefs := p;
     project_settings_loading := project_settings_loading w;
     extensions_cache := extensions_cache w;
     attract_active := attract_active w;
     flamenco_active := flamenco_active w;
     trace := trace w |}.

Definition set_loading (b : bool) (w : World) : World :=
  {| prefs := prefs w;
     project_settings_loading := b;
     extensions_cache := extensions_cache w;
     attract_active := attract_active w;
     flamenco_active := flamenco_active w;
     trace := trace w |}.

Definition set_cache (c : gmap string (gset string)) (w : World) : World :=
  {| prefs := prefs w;
     project_settings_loading := project_settings_loading w;
     extensions_cache := c;
     attract_active := attract_active w;
     flamenco_active := flamenco_active w;
     trace := trace w |}.

Definition set_active (m : extension) (b : bool) (w : World) : World :=
  {| prefs := prefs w;
     project_settings_loading := project_settings_loading w;
     extensions_cache := extensions_cache w;
     attract_active := match m with Attract => b | Flamenco => attract_active w end;
     flamenco_active := match m with Flamenco => b | Attract => flamenco_active w end;
     trace := trace w |}.

Definition record_event (e : event) (w : World) : World :=
  {| prefs := prefs w;
     project_settings_loading := project_settings_loading w;
     extensions_cache := extensions_cache w;
     attract_active := attract_active w;
     flamenco_active := flamenco_active w;
     trace := trace w ++ [(project_settings_loading w, e)] |}.

(** *** Statements that change the world and may raise *)

Definition M (A : Type) : Type := World → World * result A.

Definition ret {A} (a : A) : M A := λ w, (w, Ok a).

Definition bind {A B} (c : M A) (k : A → M B) : M B := λ w,
  match c w with
  | (w', Ok a) => k a w'
  | (w', Raise e) => (w', Raise e)
  end.

Definition lift {A} (r : result A) : M A := λ w, (w, r).

Definition update (f : World → World) : M unit := λ w, (f w, Ok tt).

(** [preferences()]: the preference object as it is now. *)
Definition preferences : M BlenderCloudPreferences := λ w, (w, Ok (prefs w)).

Declare Scope stmt_scope.
Delimit Scope stmt_scope with stmt.
Notation "'let*' x := c 'in' k" := (bind c (λ x, k))
  (at level 10, x name, c at level 100, k at level 200) : stmt_scope.
Notation "c ;; k" := (bind c (λ _, k))
  (at level 100, k at level 200, right associativity) : stmt_scope.

(** [try: body  except exc: handler  else: orelse]. *)
Definition try_except_else {A B} (body : M A) (exc : exn) (handler : M B)
    (orelse : A → M B) : M B := λ w,
  match body w with
  | (w', Ok a) => orelse a w'
  | (w', Raise e) => if decide (e = exc) then handler w' else (w', Raise e)
  end.

(** ** [project_specific] *)

Definition PROJECT_SPECIFIC_SIMPLE_PROPS : list string :=
  ["cloud_project_local_path"].

(** [with mark_as_loading(): body]: [project_settings_loading] is true
    while [body] runs and false afterwards, whether [body] returns or
    raises. *)
Definition mark_as_loading {A} (body : M A) : M A := λ w,
  let (w', r) := body (set_loading true w) in
  (set_loading false w', r).

(** Assignments to the preferences. *)
Definition setattr (name : string) (v : value) : M unit :=
  update (λ w, record_event (EvWrite name) (set_prefs (set_attr name v (prefs w)) w)).

Definition hasattr (name : string) : M bool := λ w,
  (w, Ok (bool_decide (is_Some (attrs (prefs w) !! name)))).

(** [prefs.flamenco_manager.available_managers = v]: the setter writes
    the group's ID property. The position the [manager] enum keeps is not
    touched, so what the enum reads afterwards is the item at that
    position of the new list. *)
Definition set_available_managers (v : value) : M unit :=
  update (λ w,
    let g := flamenco_manager (prefs w) in
    let g' := {| manager_index := manager_index g;
                 status := status g;
                 available_managers := v |} in
    record_event (EvWrite "flamenco_manager.available_managers")
      (set_prefs (set_flamenco_manager g' (prefs w)) w)).

(** [prefs.flamenco_manager.manager = v], returning the identifier that
    got selected. *)
Definition set_manager (v : value) : M string := λ w,
  let g := flamenco_manager (prefs w) in
  match enum_set (available_managers g) v, v with
  | Some position, VStr s =>
      let g' := {| manager_index := position;
                   status := status g;
                   available_managers := available_managers g |} in
      (record_event (EvWrite "flamenco_manager.manager")
         (set_prefs (set_flamenco_manager g' (prefs w)) w), Ok s)
  | _, _ => (w, Raise TypeError)
  end.

(** [prefs.flamenco_manager.status = s], for [s] one of the three items. *)
Definition set_status (s : string) : M unit :=
  update (λ w,
    let g := flamenco_manager (prefs w) in
    let g' := {| manager_index := manager_index g;
                 status := s;
                 available_managers := available_managers g |} in
    record_event (EvWrite "flamenco_manager.status")
      (set_prefs (set_flamenco_manager g' (prefs w)) w)).

(** Assignments to the two string properties: a value that is not a
    string is refused with a [TypeError]. *)
Definition set_job_file_path (v : value) : M unit := λ w,
  match v with
  | VStr s =>
      (record_event (EvWrite "flamenco_job_file_path")
         (set_prefs (set_flamenco_job_file_path s (prefs w)) w), Ok tt)
  | _ => (w, Raise TypeError)
  end.

Definition set_job_output_path (v : value) : M unit := λ w,
  match v with
  | VStr s =>
      (record_event (EvWrite "flamenco_job_output_path")
         (set_prefs (set_flamenco_job_output_path s (prefs w)) w), Ok tt)
  | _ => (w, Raise TypeError)
  end.

(** Assignment to the integer property: a value that is not an integer
    is refused with a [TypeError], and an integer below the property's
    minimum of 0 is stored as 0. *)
Definition set_job_output_strip_components (v : value) : M unit := λ w,
  match v with
  | VInt n =>
      (record_event (EvWrite "flamenco_job_output_strip_components")
         (set_prefs (set_flamenco_job_output_strip_components (Z.to_N n) (prefs w)) w),
       Ok tt)
  | _ => (w, Raise TypeError)
  end.

Definition log_warning : M unit := update (record_event EvLogWarning).

(** Modelled from the spec: the feature modules' [activate()] and
    [deactivate()], which are not part of the sources at hand. Each
    toggles the registration of its module. *)
Definition activate (m : extension) : M unit :=
  update (λ w, record_event (EvActivate m) (set_active m true w)).

Definition deactivate (m : extension) : M unit :=
  update (λ w, record_event (EvDeactivate m) (set_active m false w)).

Section ProjectSpecific.

(** The computation behind [project_extensions]: the names of the
    extensions enabled on a project, taken from the project's metadata. *)
Variable project_extensions_impl : string → gset string.

(** Modelled from the spec: [project_extensions], memoized per project
    id, with the [cache_clear()] of its memo table. *)
Definition project_extensions_cache_clear : M unit :=
  update (λ w, record_event EvCacheClear (set_cache ∅ w)).

Definition project_extensions (project_id : string) : M (gset string) := λ w,
  let w1 := record_event (EvProjectExtensions project_id) w in
  match extensions_cache w !! project_id with
  | Some r => (w1, Ok r)
  | None =>
      let r := project_extensions_impl project_id in
      (set_cache (<[project_id := r]> (extensions_cache w)) w1, Ok r)
  end.

(** The loop that restores the simple properties from [ps]. *)
Fixpoint restore_simple_props (ps : value) (names : list string) : M unit :=
  match names with
  | [] => ret tt
  | name :: rest =>
      (let* in_ps := lift (py_contains name ps) in
       let* has := hasattr name in
       (if in_ps && has then
          let* v := lift (py_getitem ps name) in
          setattr name v
        else ret tt) ;;
       restore_simple_props ps rest)%stmt
  end.

(** The three assignments that restore a manager's saved paths. *)
Definition restore_manager_settings (pppm : value) : M unit :=
  (let* file_path := lift (py_getitem pppm "file_path") in
   set_job_file_path file_path ;;
   let* output_path := lift (py_getitem pppm "output_path") in
   set_job_output_path output_path ;;
   let* strip := lift (py_getitem pppm "output_strip_components") in
   set_job_output_strip_components strip)%stmt.

(** Selecting the manager saved in [ps] and, when the selection works,
    restoring that manager's saved paths. Without a saved manager id the
    code assigns [None] to the enum, which takes item identifiers only. *)
Definition restore_manager (ps : value) : M unit :=
  (let* flamenco_manager_id := lift (py_get ps "flamenco_manager_id" VNone) in
   if truthy flamenco_manager_id then
     try_except_else (set_manager flamenco_manager_id)
       TypeError log_warning
       (λ selected,
          try_except_else
            (lift (fms ← py_getitem ps "flamenco_managers_settings";
                   py_getitem fms selected))
            KeyError (ret tt)
            restore_manager_settings)
   else
     (set_manager VNone ;; ret tt))%stmt.

(** Restoring the Flamenco settings from [ps]: the managers list, then
    the manager and its paths. *)
Definition restore_flamenco_settings (ps : value) : M unit :=
  (let* mngrs := lift (py_get ps "flamenco_available_managers" (VList [])) in
   set_available_managers mngrs ;;
   restore_manager ps)%stmt.

(** The body of [handle_project_update] from the point where the saved
    settings [ps] of the project are known to be non-empty. *)
Definition restore_settings (ps : value) : M unit :=
  (restore_simple_props ps PROJECT_SPECIFIC_SIMPLE_PROPS ;;
   restore_flamenco_settings ps)%stmt.

(** The first half of [handle_project_update]: forget the memoized
    extensions, deactivate both feature modules, ask which extensions
    the project has, and activate those. *)
Definition switch_extensions (project_id : string) : M unit :=
  (project_extensions_cache_clear ;;
   deactivate Attract ;;
   deactivate Flamenco ;;
   let* enabled_for := project_extensions project_id in
   (if decide ("attract" ∈ enabled_for) then activate Attract else ret tt) ;;
   (if decide ("flamenco" ∈ enabled_for) then activate Flamenco else ret tt))%stmt.

(** The second half: load the settings saved the last time the project
    was visited. The pretty-printing of [ps] for the debug log, which
    writes nothing, is left out. *)
Definition load_project_settings (project_id : string) : M unit :=
  (let* p := preferences in
   let* ps := lift (py_get (prefs_get p "project_settings" (VDict ∅))
                      project_id (VDict ∅)) in
   if negb (truthy ps) then
     set_available_managers (VList [])
   else
     restore_settings ps)%stmt.

Definition handle_project_update : M unit :=
  mark_as_loading
    (let* p := preferences in
     let project_id := project p in
     switch_extensions project_id ;;
     load_project_settings project_id)%stmt.

End ProjectSpecific.

(** The loop that copies the simple properties into [ps]. *)
Fixpoint store_simple_props (p : BlenderCloudPreferences) (names : list string)
    (ps : value) : result value :=
  match names with
  | [] => Ok ps
  | name :: rest =>
      match attrs p !! name with
      | Some v => ps' ← py_setitem ps name v; store_simple_props p rest ps'
      | None => Raise AttributeError
      end
  end.

(** The per-manager settings that [store] saves. *)
Definition manager_settings (p : BlenderCloudPreferences) : value :=
  VDict (<["file_path" := VStr (flamenco_job_file_path p)]>
         (<["output_path" := VStr (flamenco_job_output_path p)]>
          (<["output_strip_components" :=
               VInt (Z.of_N (flamenco_job_output_strip_components p))]> ∅))).

(** [store]: the world it leaves when it returns, or the exception it
    raises. Every mapping it changes is written back to the place it was
    read from, so the mappings are passed by value; the pretty-printing
    for the debug log is left out. *)
Definition store (w : World) : result World :=
  if project_settings_loading w then Ok w
  else
    let p := prefs w in
    let project_id := project p in
    let all_settings := prefs_get p "project_settings" (VDict ∅) in
    ps ← py_get all_settings project_id (VDict ∅);
    ps ← store_simple_props p PROJECT_SPECIFIC_SIMPLE_PROPS ps;
    ps ← py_setitem ps "flamenco_manager_id" (VStr (manager (flamenco_manager p)));
    ps ← py_setitem ps "flamenco_available_managers"
           (available_managers (flamenco_manager p));
    pppm ← py_get ps "flamenco_managers_settings" (VDict ∅);
    pppm ← py_setitem pppm (manager (flamenco_manager p)) (manager_settings p);
    ps ← py_setitem ps "flamenco_managers_settings" pppm;
    all_settings ← py_setitem all_settings project_id ps;
    Ok (set_prefs (set_idprop "project_settings" all_settings p) w).

(** ** [flamenco]: fetching the managers *)

(** One fetched manager [p] as the mapping
    [{'_id': p['_id'], 'name': p['name']}]. *)
Definition manager_as_dict (p : value) : result value :=
  _id ← py_getitem p "_id";
  name ← py_getitem p "name";
  Ok (VDict (<["_id" := _id]> {[ "name" := name ]})).

(** The comprehension over [managers['_items']] that makes [as_list]. A
    list is gone through element by element. A mapping or a string
    yields strings, none of which can be indexed by ['_id']; [None] and
    integers cannot be iterated. *)
Definition managers_as_list (managers : value) : result value :=
  items ← py_getitem managers "_items";
  match items with
  | VList l => l' ← mapM manager_as_dict l; Ok (VList l')
  | VDict _ | VStr _ => if truthy items then Raise TypeError else Ok (VList [])
  | VNone | VInt _ => Raise TypeError
  end.

(** [FLAMENCO_OT_fmanagers.quit], as far as the preferences go. *)
Definition FLAMENCO_OT_fmanagers_quit : M unit := set_status "IDLE".

(** [FLAMENCO_OT_fmanagers.async_execute], with the answer of
    [self.authenticate] and the outcome of [pillar_call(Manager.all)]
    given. *)
Definition FLAMENCO_OT_fmanagers_async_execute (authenticated : bool)
    (fetched : result value) : M unit :=
  if negb authenticated then ret tt
  else
    (set_status "FETCHING" ;;
     let* managers := lift fetched in
     let* as_list := lift (managers_as_list managers) in
     set_available_managers as_list ;;
     FLAMENCO_OT_fmanagers_quit)%stmt.

(** ** The vocabulary of the statements *)

(** *** Reading the saved settings *)

(** The persisted ['project_settings'] mapping, when there is one. *)
Definition project_settings (w : World) : option value :=
  idprops (prefs w) !! "project_settings".

(** What is saved under a path of keys of ['project_settings']. *)
Definition saved (w : World) (path : list string) : option value :=
  project_settings w ≫= λ v, lookup_path v path.

(** The current project and manager. *)
Definition current_project (w : World) : string := project (prefs w).
Definition current_manager (w : World) : string := manager (flamenco_manager (prefs w)).

(** The keys of a project's entry that [store] writes. *)
Definition stored_keys : list string :=
  PROJECT_SPECIFIC_SIMPLE_PROPS ++
  ["flamenco_manager_id"; "flamenco_available_managers"; "flamenco_managers_settings"].

(** [store] has what it needs to return: every simple property exists on
    the preferences, and what is persisted so far has the layout [store]
    itself produces (mappings at the three levels it walks through). *)
Definition storable (w : World) : Prop :=
  (∀ name, name ∈ PROJECT_SPECIFIC_SIMPLE_PROPS → is_Some (attrs (prefs w) !! name)) ∧
  (∃ all ps pppm,
      prefs_get (prefs w) "project_settings" (VDict ∅) = VDict all ∧
      default (VDict ∅) (all !! current_project w) = VDict ps ∧
      default (VDict ∅) (ps !! "flamenco_managers_settings") = VDict pppm).

(** *** Histories and frames *)

(** Stamping a run of events with the value of the loading flag. *)
Definition stamp (b : bool) (evs : list event) : list (bool * event) :=
  pair b <$> evs.

(** The events of restoring saved settings: writes to the preferences and
    the warning about a manager that is gone. *)
Definition is_restore_event (e : event) : Prop :=
  match e with
  | EvWrite _ | EvLogWarning => True
  | _ => False
  end.

(** The activation events, for a set of enabled extensions. *)
Definition enabled_events (enabled_for : gset string) : list event :=
  (if decide ("attract" ∈ enabled_for) then [EvActivate Attract] else []) ++
  (if decide ("flamenco" ∈ enabled_for) then [EvActivate Flamenco] else []).

(** The events of the first half of [handle_project_update]. *)
Definition switch_events (project_id : string) (enabled_for : gset string) : list event :=
  [EvCacheClear; EvDeactivate Attract; EvDeactivate Flamenco;
   EvProjectExtensions project_id] ++ enabled_events enabled_for.

(** [w'] comes from [w] by restoring settings only: some restore events
    were added, and the loading flag, the memo table, the feature modules,
    the current project and the ID properties are as they were. *)
Definition restored_from (w w' : World) : Prop :=
  project_settings_loading w' = project_settings_loading w ∧
  extensions_cache w' = extensions_cache w ∧
  attract_active w' = attract_active w ∧
  flamenco_active w' = flamenco_active w ∧
  project (prefs w') = project (prefs w) ∧
  idprops (prefs w') = idprops (prefs w) ∧
  ∃ evs, trace w' = trace w ++ stamp (project_settings_loading w) evs ∧
         Forall is_restore_event evs.

(** [w'] has the simple properties of [w]. *)
Definition same_attrs (w w' : World) : Prop := attrs (prefs w') = attrs (prefs w).

(** The manager group of [w'] has the status of that of [w]. *)
Definition same_status (w w' : World) : Prop :=
  status (flamenco_manager (prefs w')) = status (flamenco_manager (prefs w)).

(** A statement keeps the world within a relation, whatever its outcome. *)
Definition preserves (R : World → World → Prop) {A} (c : M A) : Prop :=
  ∀ w, R w (c w).1.

(** *** Loading, step by step *)

(** Restoring one simple property: it is written when it was saved and the
    preferences have it. *)
Definition restore_one (d : gmap string value) (name : string) (w : World) : World :=
  match d !! name, attrs (prefs w) !! name with
  | Some v, Some _ => record_event (EvWrite name) (set_prefs (set_attr name v (prefs w)) w)
  | _, _ => w
  end.

(** The world after the loop over the simple properties. *)
Definition simple_props_restored (d : gmap string value) (w : World) : World :=
  foldl (λ w name, restore_one d name w) w PROJECT_SPECIFIC_SIMPLE_PROPS.

(** The managers list that gets restored from an entry. *)
Definition saved_managers (d : gmap string value) : value :=
  default (VList []) (d !! "flamenco_available_managers").

(** The three job path settings of [w'] are those of [w]. *)
Definition paths_kept (w w' : World) : Prop :=
  flamenco_job_file_path (prefs w') = flamenco_job_file_path (prefs w) ∧
  flamenco_job_output_path (prefs w') = flamenco_job_output_path (prefs w) ∧
  flamenco_job_output_strip_components (prefs w') =
    flamenco_job_output_strip_components (prefs w).

(** The live values of [w'], all that the preferences hold outside the ID
    properties, are those of [w]. *)
Definition live_values_kept (w w' : World) : Prop :=
  project (prefs w') = project (prefs w) ∧
  attrs (prefs w') = attrs (prefs w) ∧
  flamenco_manager (prefs w') = flamenco_manager (prefs w) ∧
  paths_kept w w'.

(** The current project has no entry, or an empty one, in the persisted
    mapping. *)
Definition no_saved_entry (w : World) : Prop :=
  project_settings w = None ∨
  ∃ all, project_settings w = Some (VDict all) ∧
         (all !! current_project w = None ∨ all !! current_project w = Some (VDict ∅)).

(** A manager is selected: the enum reads as a non-empty identifier, one
    of those the list of available managers offers. *)
Definition manager_selected (w : World) : Prop :=
  current_manager w ≠ "" ∧
  current_manager w ∈ manager_ids (available_managers (flamenco_manager (prefs w))).

(** The world a run of [handle_project_update] leaves, and how it ends. *)
Definition loaded (project_extensions_impl : string → gset string) (w : World) : World :=
  (handle_project_update project_extensions_impl w).1.

Definition outcome (project_extensions_impl : string → gset string) (w : World)
  : result unit :=
  (handle_project_update project_extensions_impl w).2.

(** The world after the first half, run with the loading flag set. *)
Definition switched (project_extensions_impl : string → gset string) (w : World) : World :=
  let enabled_for := project_extensions_impl (current_project w) in
  {| prefs := prefs w;
     project_settings_loading := true;
     extensions_cache := {[ current_project w := enabled_for ]};
     attract_active := bool_decide ("attract" ∈ enabled_for);
     flamenco_active := bool_decide ("flamenco" ∈ enabled_for);
     trace := trace w ++ stamp true (switch_events (current_project w) enabled_for) |}.

(** *** What an entry selects *)

(** The manager id saved in an entry, [None] when there is none. *)
Definition saved_manager_id (d : gmap string value) : value :=
  default VNone (d !! "flamenco_manager_id").

(** The manager that loading the entry selects: the position, among the
    managers restored from the entry, of the saved id, when the id is
    truthy and those managers offer it. *)
Definition selection (d : gmap string value) : option nat :=
  if truthy (saved_manager_id d) then enum_set (saved_managers d) (saved_manager_id d)
  else None.

(** The settings mapping the entry holds for the manager it selects. *)
Definition selected_settings (d : gmap string value) : option (gmap string value) :=
  match selection d, saved_manager_id d, d !! "flamenco_managers_settings" with
  | Some _, VStr s, Some (VDict f) =>
      match f !! s with Some (VDict pm) => Some pm | _ => None end
  | _, _, _ => None
  end.

(** How the three assignments from a settings mapping [pm] end: with the
    [KeyError] of the first setting that [pm] lacks, or the [TypeError]
    of the first one that is not of the property's type. *)
Definition restoring_outcome (pm : gmap string value) : result unit :=
  match pm !! "file_path" with
  | Some (VStr _) =>
      match pm !! "output_path" with
      | Some (VStr _) =>
          match pm !! "output_strip_components" with
          | Some (VInt _) => Ok tt
          | Some _ => Raise TypeError
          | None => Raise KeyError
          end
      | Some _ => Raise TypeError
      | None => Raise KeyError
      end
  | Some _ => Raise TypeError
  | None => Raise KeyError
  end.

(** The three job path settings after those assignments: each is assigned
    when the ones before it were, [old] being the value it had. *)
Definition file_path_after (pm : gmap string value) (old : string) : string :=
  match pm !! "file_path" with
  | Some (VStr a) => a
  | _ => old
  end.

Definition output_path_after (pm : gmap string value) (old : string) : string :=
  match pm !! "file_path", pm !! "output_path" with
  | Some (VStr _), Some (VStr b) => b
  | _, _ => old
  end.

Definition strip_components_after (pm : gmap string value) (old : N) : N :=
  match pm !! "file_path", pm !! "output_path", pm !! "output_strip_components" with
  | Some (VStr _), Some (VStr _), Some (VInt n) => Z.to_N n
  | _, _, _ => old
  end.

(** The entry names a manager, by a truthy id, that the managers
    restored from it do not offer. *)
Definition selection_refused (d : gmap string value) : bool :=
  truthy (saved_manager_id d) &&
  bool_decide (enum_set (saved_managers d) (saved_manager_id d) = None).

#[global] Instance extension_eq_dec : EqDecision extension.
Proof. solve_decision. Defined.

#[global] Instance event_eq_dec : EqDecision event.
Proof. solve_decision. Defined.

(** How many warnings the history holds. *)
Definition warnings (w : World) : nat :=
  length (filter (λ e : bool * event, e.2 = EvLogWarning) (trace w)).

(** [w'] holds as many warnings as [w]. *)
Definition same_warnings (w w' : World) : Prop := warnings w' = warnings w.

(** *** Managers *)

(** The item the selector shows when there are no managers. *)
Definition no_managers_item : enum_item :=
  ("", "No managers available in your Blender Cloud", "").





(** [p] is a mapping that lacks ['_id'] or ['name']. *)
Definition lacks_id_or_name (p : value) : Prop :=
  ∃ d, p = VDict d ∧ (d !! "_id" = None ∨ d !! "name" = None).

(** *** Concrete worlds *)

(** The saved entry of the example: a manager id and that manager's
    settings, and no list of available managers. *)
Definition example_entry : gmap string value :=
  <["flamenco_manager_id" := VStr "m1"]>
    {[ "flamenco_managers_settings" :=
         VDict {[ "m1" := VDict (<["file_path" := VStr "/a"]>
                                 (<["output_path" := VStr "/b"]>
                                  {[ "output_strip_components" := VInt 2 ]})) ]} ]}.

(** A project with the Flamenco extension only. *)
Definition flamenco_only : string → gset string := λ _, {[ "flamenco" ]}.

(** Preferences with the default paths of [BlenderCloudPreferences], no
    managers to select from and nothing persisted. *)
Definition default_prefs (project_id : string) : BlenderCloudPreferences :=
  {| project := project_id;
     attrs := {[ "cloud_project_local_path" := VStr "//../" ]};
     flamenco_manager :=
       {| manager_index := 0; status := "NONE"; available_managers := VList [] |};
     flamenco_job_file_path := "/render/_flamenco/storage";
     flamenco_job_output_path := "/render/_flamenco/output";
     flamenco_job_output_strip_components := 0;
     idprops := ∅ |}.

Definition fresh_world (p : BlenderCloudPreferences) : World :=
  {| prefs := p;
     project_settings_loading := false;
     extensions_cache := ∅;
     attract_active := false;
     flamenco_active := false;
     trace := [] |}.

(** The persisted state of the example, with "projA" the current project. *)
Definition example_world : World :=
  fresh_world
    (set_idprop "project_settings" (VDict {[ "projA" := VDict example_entry ]})
       (default_prefs "projA")).

(** The same, with a managers list that offers "m1". *)
Definition one_manager : value :=
  VList [VDict (<["_id" := VStr "m1"]> {[ "name" := VStr "Manager One" ]})].

Definition example_world_with_managers : World :=
  fresh_world
    (set_idprop "project_settings"
       (VDict {[ "projA" :=
                 VDict (<["flamenco_available_managers" := one_manager]> example_entry) ]})
       (default_prefs "projA")).

(** Someone at work on "projA": the manager "m1" selected, paths of their
    own. *)
Definition working_prefs : BlenderCloudPreferences :=
  {| project := "projA";
     attrs := {[ "cloud_project_local_path" := VStr "/home/me/projA" ]};
     flamenco_manager :=
       {| manager_index := 0; status := "IDLE"; available_managers := one_manager |};
     flamenco_job_file_path := "/shared/jobs";
     flamenco_job_output_path := "/shared/frames";
     flamenco_job_output_strip_components := 3;
     idprops := ∅ |}.

Definition working_world : World := fresh_world working_prefs.

(** The world [store] leaves, to name it in examples: the world itself
    when [store] raises. *)
Definition stored (w : World) : World :=
  match store w with
  | Ok w' => w'
  | Raise _ => w
  end.

(** The default preferences again, with what was stored for the working
    world still persisted. *)
Definition revisited_world : World :=
  fresh_world
    (set_idprop "project_settings"
       (default (VDict ∅) (project_settings (stored working_world)))
       (default_prefs "projA")).

(** An entry that names a manager the list offers, and saves nothing for
    it. *)
Definition entry_without_settings : gmap string value :=
  <["flamenco_manager_id" := VStr "m1"]> {[ "flamenco_available_managers" := one_manager ]}.

Definition world_without_settings : World :=
  fresh_world
    (set_idprop "project_settings" (VDict {[ "projA" := VDict entry_without_settings ]})
       (default_prefs "projA")).

(** The preferences as the [BlenderCloudPreferences] class at hand declares
    them: it has a project-local path of Attract, and no property named
    in [PROJECT_SPECIFIC_SIMPLE_PROPS]. *)
Definition declared_prefs (project_id : string) : BlenderCloudPreferences :=
  {| project := project_id;
     attrs := {[ "attract_project_local_path" := VStr "//../" ]};
     flamenco_manager :=
       {| manager_index := 0; status := "NONE"; available_managers := VList [] |};
     flamenco_job_file_path := "/render/_flamenco/storage";
     flamenco_job_output_path := "/render/_flamenco/output";
     flamenco_job_output_strip_components := 0;
     idprops := ∅ |}.

(** An entry whose settings for "m1" stop after the file path. *)
Definition entry_with_partial_settings : gmap string value :=
  <["flamenco_manager_id" := VStr "m1"]>
    (<["flamenco_available_managers" := one_manager]>
      {[ "flamenco_managers_settings" :=
           VDict {[ "m1" := VDict {[ "file_path" := VStr "/a" ]} ]} ]}).

Definition world_with_partial_settings : World :=
  fresh_world
    (set_idprop "project_settings"
       (VDict {[ "projA" := VDict entry_with_partial_settings ]})
       (default_prefs "projA")).


(** An answer in which the second manager has no name. *)
Definition fetched_managers_nameless : value :=
  VDict {[ "_items" :=
     VList [VDict (<["_id" := VStr "m1"]> {[ "name" := VStr "Manager One" ]});
            VDict {[ "_id" := VStr "m2" ]}] ]}.

(** Project "projB", visited with the default preferences after the
    working world was stored. *)
Definition other_project_world : World :=
  fresh_world
    (set_idprop "project_settings"
       (default (VDict ∅) (project_settings (stored working_world)))
       (default_prefs "projB")).

(** Back on "projA", with the default preferences, after "projB" was
    stored too. *)
Definition returned_world : World :=
  fresh_world
    (set_idprop "project_settings"
       (default (VDict ∅) (project_settings (stored other_project_world)))
       (default_prefs "projA")).



(** Two lists of two managers each. *)
Definition two_managers : value :=
  VList [VDict (<["_id" := VStr "m1"]> {[ "name" := VStr "Manager One" ]});
         VDict (<["_id" := VStr "m2"]> {[ "name" := VStr "Manager Two" ]})].

Definition two_other_managers : value :=
  VList [VDict (<["_id" := VStr "m3"]> {[ "name" := VStr "Manager Three" ]});
         VDict (<["_id" := VStr "m4"]> {[ "name" := VStr "Manager Four" ]})].

(** An entry that names a manager, "m9", that its own list of managers
    does not offer, with settings saved for it all the same. *)
Definition stale_entry : gmap string value :=
  <["flamenco_manager_id" := VStr "m9"]>
    (<["flamenco_available_managers" := two_other_managers]>
      {[ "flamenco_managers_settings" :=
           VDict {[ "m9" := VDict (<["file_path" := VStr "/a"]>
                                   (<["output_path" := VStr "/b"]>
                                    {[ "output_strip_components" := VInt 2 ]})) ]} ]}).

(** Someone with the second of two managers, "m2", selected, who comes to
    "projA", for which the stale entry is saved. *)
Definition stale_world : World :=
  fresh_world
    {| project := "projA";
       attrs := {[ "cloud_project_local_path" := VStr "//../" ]};
       flamenco_manager :=
         {| manager_index := 1; status := "IDLE"; available_managers := two_managers |};
       flamenco_job_file_path := "/shared/jobs";
       flamenco_job_output_path := "/shared/frames";
       flamenco_job_output_strip_components := 3;
       idprops := {[ "project_settings" := VDict {[ "projA" := VDict stale_entry ]} ]} |}.

(** The settings of a manager, as [store] lays them out. *)
Definition job_settings (file_path output_path : string) (strip : Z) : value :=
  VDict (<["file_path" := VStr file_path]>
         (<["output_path" := VStr output_path]>
          {[ "output_strip_components" := VInt strip ]})).

(** The working preferences with a history: an entry for "projB", and for
    "projA" an entry with settings of a manager "m2" and a key that
    [store] does not write; next to ['project_settings'], another ID
    property. *)
Definition busy_settings : gmap string value :=
  <["projB" := VDict (<["flamenco_manager_id" := VStr "m7"]>
                      {[ "flamenco_managers_settings" :=
                           VDict {[ "m7" := job_settings "/b/jobs" "/b/frames" 1 ]} ]})]>
    {[ "projA" := VDict (<["notes" := VStr "kept"]>
                         {[ "flamenco_managers_settings" :=
                              VDict {[ "m2" := job_settings "/two/jobs" "/two/frames" 2 ]}
                         ]}) ]}.

Definition busy_world : World :=
  fresh_world
    (set_idprop "project_settings" (VDict busy_settings)
       (set_idprop "last_visit" (VInt 7) working_prefs)).

(** An entry whose settings for "m1" hold a number for the output path. *)
Definition entry_with_ill_typed_settings : gmap string value :=
  <["flamenco_manager_id" := VStr "m1"]>
    (<["flamenco_available_managers" := one_manager]>
      {[ "flamenco_managers_settings" :=
           VDict {[ "m1" := VDict (<["file_path" := VStr "/a"]>
                                   (<["output_path" := VInt 5]>
                                    {[ "output_strip_components" := VInt 2 ]})) ]} ]}).

Definition world_with_ill_typed_settings : World :=
  fresh_world
    (set_idprop "project_settings"
       (VDict {[ "projA" := VDict entry_with_ill_typed_settings ]})
       (default_prefs "projA")).

(** An entry whose settings for "m1" hold a negative strip count. *)
Definition entry_with_negative_strip_count : gmap string value :=
  <["flamenco_manager_id" := VStr "m1"]>
    (<["flamenco_available_managers" := one_manager]>
      {[ "flamenco_managers_settings" :=
           VDict {[ "m1" := job_settings "/a" "/b" (-5) ]} ]}).

Definition world_with_negative_strip_count : World :=
  fresh_world
    (set_idprop "project_settings"
       (VDict {[ "projA" := VDict entry_with_negative_strip_count ]})
       (set_flamenco_job_output_strip_components 3 (default_prefs "projA"))).

(** ** Properties of [store] *)

Lemma store_simple_props_inv p names ps v :
  store_simple_props p names (VDict ps) = Ok v →
  ∃ ps', v = VDict ps' ∧
    (∀ k, k ∉ names → ps' !! k = ps !! k) ∧
    (∀ k, k ∈ names → ps' !! k = attrs p !! k ∧ is_Some (attrs p !! k)).
Proof.
  revert ps. induction names as [|name rest IH]; intros ps H; simpl in H.
  - injection H as <-. exists ps. split; [done|]. split; [done|].
    intros k Hk. by apply elem_of_nil in Hk.
  - destruct (attrs p !! name) as [x|] eqn:Hx; [|done].
    simpl in H. apply IH in H as (ps' & -> & Hout & Hin).
    exists ps'. split; [done|]. split.
    + intros k Hk. apply not_elem_of_cons in Hk as [Hne Hk].
      rewrite Hout by done. by rewrite lookup_insert_ne.
    + intros k Hk. destruct (decide (k ∈ rest)) as [Hr|Hr]; [by apply Hin|].
      apply elem_of_cons in Hk as [->|Hk]; [|done].
      rewrite Hout by done. rewrite lookup_insert_eq, Hx. eauto.
Qed.

Lemma store_simple_props_total p names ps :
  (∀ name, name ∈ names → is_Some (attrs p !! name)) →
  ∃ ps', store_simple_props p names (VDict ps) = Ok (VDict ps').
Proof.
  revert ps. induction names as [|name rest IH]; intros ps H; simpl.
  - by exists ps.
  - destruct (H name) as [x ->]; [by left|]. simpl.
    apply IH. intros n Hn. apply H. by right.
Qed.

Lemma store_simple_props_fixed p names ps :
  (∀ k, k ∈ names → ps !! k = attrs p !! k ∧ is_Some (attrs p !! k)) →
  store_simple_props p names (VDict ps) = Ok (VDict ps).
Proof.
  induction names as [|name rest IH]; intros H; simpl; [done|].
  destruct (H name) as [Hps [x Hx]]; [by left|].
  rewrite Hx. simpl. rewrite insert_id by congruence.
  apply IH. intros k Hk. apply H. by right.
Qed.

(** The loop only gets through on a mapping. *)
Lemma store_simple_props_dict p v v' :
  store_simple_props p PROJECT_SPECIFIC_SIMPLE_PROPS v = Ok v' → ∃ ps, v = VDict ps.
Proof.
  unfold PROJECT_SPECIFIC_SIMPLE_PROPS. simpl.
  destruct (attrs p !! _); [|done]. destruct v; try done. eauto.
Qed.

Lemma managers_settings_key_not_simple_prop :
  "flamenco_managers_settings" ∉ PROJECT_SPECIFIC_SIMPLE_PROPS.
Proof.
  unfold PROJECT_SPECIFIC_SIMPLE_PROPS. intros Hk.
  by apply list_elem_of_singleton in Hk.
Qed.

#[local] Arguments store_simple_props : simpl never.

(** The shape of a successful [store]: the mappings it read, and the
    world it leaves. *)
Lemma store_inv w w' :
  project_settings_loading w = false →
  store w = Ok w' →
  ∃ all ps ps' pppm,
    prefs_get (prefs w) "project_settings" (VDict ∅) = VDict all ∧
    default (VDict ∅) (all !! current_project w) = VDict ps ∧
    store_simple_props (prefs w) PROJECT_SPECIFIC_SIMPLE_PROPS (VDict ps) = Ok (VDict ps') ∧
    default (VDict ∅) (ps !! "flamenco_managers_settings") = VDict pppm ∧
    w' = set_prefs
           (set_idprop "project_settings"
              (VDict (<[current_project w :=
                 VDict (<["flamenco_managers_settings" :=
                          VDict (<[current_manager w := manager_settings (prefs w)]> pppm)]>
                        (<["flamenco_available_managers" :=
                             available_managers (flamenco_manager (prefs w))]>
                         (<["flamenco_manager_id" := VStr (current_manager w)]> ps')))]> all))
              (prefs w)) w.
Proof.
  intros Hl H. unfold store in H. rewrite Hl in H.
  destruct (prefs_get (prefs w) "project_settings" (VDict ∅)) as [| | | |all] eqn:Hall;
    try done.
  simpl in H.
  destruct (store_simple_props (prefs w) PROJECT_SPECIFIC_SIMPLE_PROPS _)
    as [v|] eqn:Hsp; [|done].
  destruct (store_simple_props_dict _ _ _ Hsp) as [ps Hps]. rewrite Hps in Hsp.
  destruct (store_simple_props_inv _ _ _ _ Hsp) as (ps' & Hv & Hout & _).
  subst v. simpl in H. rewrite !lookup_insert_ne in H by done.
  rewrite Hout in H by apply managers_settings_key_not_simple_prop.
  destruct (default (VDict ∅) (ps !! "flamenco_managers_settings"))
    as [| | | |pppm] eqn:Hpppm; try done.
  simpl in H. injection H as <-.
  by exists all, ps, ps', pppm.
Qed.

(** A [store] with what it needs returns. *)
Lemma store_total w :
  project_settings_loading w = false → storable w → ∃ w', store w = Ok w'.
Proof.
  intros Hl [Hattrs (all & ps & pppm & Hall & Hps & Hpppm)].
  destruct (store_simple_props_total (prefs w) PROJECT_SPECIFIC_SIMPLE_PROPS ps Hattrs)
    as [ps' Hsp].
  destruct (store_simple_props_inv _ _ _ _ Hsp) as (ps'' & Heq & Hout & _).
  injection Heq as <-. unfold store. rewrite Hl, Hall. simpl. unfold current_project in Hps.
  rewrite Hps, Hsp. simpl. rewrite !lookup_insert_ne by done.
  rewrite Hout by apply managers_settings_key_not_simple_prop.
  rewrite Hpppm. simpl. eauto.
Qed.

(** *** What is saved, in terms of the mappings [store] walks through *)

Lemma saved_cons w all k rest :
  prefs_get (prefs w) "project_settings" (VDict ∅) = VDict all →
  saved w (k :: rest) = all !! k ≫= λ x, lookup_path x rest.
Proof.
  unfold prefs_get, saved, project_settings.
  destruct (idprops (prefs w) !! "project_settings") as [v|]; simpl.
  - by intros ->.
  - intros [= <-]. by rewrite lookup_empty.
Qed.

Lemma lookup_default_cons (m : gmap string value) k d k' rest :
  default (VDict ∅) (m !! k) = VDict d →
  (m !! k ≫= λ x, lookup_path x (k' :: rest)) = d !! k' ≫= λ x, lookup_path x rest.
Proof.
  destruct (m !! k) as [v|]; simpl.
  - by intros ->.
  - intros [= <-]. by rewrite lookup_empty.
Qed.

Lemma saved_set_idprop w v path :
  saved (set_prefs (set_idprop "project_settings" v (prefs w)) w) path = lookup_path v path.
Proof. unfold saved, project_settings. simpl. by rewrite lookup_insert_eq. Qed.

Lemma simple_prop_not_flamenco_key k :
  k ∈ PROJECT_SPECIFIC_SIMPLE_PROPS →
  k ≠ "flamenco_manager_id" ∧ k ≠ "flamenco_available_managers" ∧
  k ≠ "flamenco_managers_settings".
Proof.
  unfold PROJECT_SPECIFIC_SIMPLE_PROPS. intros Hk.
  apply list_elem_of_singleton in Hk as ->. done.
Qed.

(** An assignment that the host may refuse: either nothing happened, or
    the write did, which [written] settles. *)
Ltac assignment written :=
  intros; intros ?w;
  unfold set_manager, set_job_file_path, set_job_output_path,
    set_job_output_strip_components;
  repeat case_match; cbn [fst]; first [reflexivity | written].

(** Walking down nested mappings that were just written. *)
Ltac walk :=
  repeat first
    [ rewrite lookup_insert_eq
    | rewrite lookup_insert_ne by done
    | progress simpl ].

(** C2: while [project_settings_loading] is true, [store] returns at once
    and leaves the whole world, the persisted ['project_settings'] mapping
    included, as it was. *)
Theorem store_noop_while_loading w :
  project_settings_loading w = true → store w = Ok w.
Proof. intros Hl. unfold store. by rewrite Hl. Qed.

(** C7: a [store] that is not suppressed changes, in the persisted mapping,
    only the entry of the current project; in that entry's
    ['flamenco_managers_settings'] only the key of the current manager; it
    keeps the entry's keys it does not write, the other ID properties and
    the live preference values. *)
Theorem store_frame w w' :
  project_settings_loading w = false →
  store w = Ok w' →
  (∀ pid, pid ≠ current_project w → saved w' [pid] = saved w [pid]) ∧
  (∀ m, m ≠ current_manager w →
     saved w' [current_project w; "flamenco_managers_settings"; m] =
     saved w [current_project w; "flamenco_managers_settings"; m]) ∧
  (∀ k, k ∉ stored_keys →
     saved w' [current_project w; k] = saved w [current_project w; k]) ∧
  (∀ k, k ≠ "project_settings" → idprops (prefs w') !! k = idprops (prefs w) !! k) ∧
  live_values_kept w w'.
Proof.
  intros Hl H.
  destruct (store_inv _ _ Hl H) as (all & ps & ps' & pppm & Hall & Hps & Hsp & Hpppm & ->).
  destruct (store_simple_props_inv _ _ _ _ Hsp) as (ps'' & Heq & Hout & _).
  injection Heq as <-.
  repeat split.
  - intros pid Hne. rewrite saved_set_idprop, (saved_cons w all) by done.
    simpl. by rewrite lookup_insert_ne.
  - intros m Hne. rewrite saved_set_idprop, (saved_cons w all) by done.
    rewrite (lookup_default_cons all _ ps) by done.
    walk.
    destruct (ps !! "flamenco_managers_settings") as [v|]; simpl in *.
    + by subst v.
    + injection Hpppm as <-. by rewrite lookup_empty.
  - intros k Hk. rewrite saved_set_idprop, (saved_cons w all) by done.
    rewrite (lookup_default_cons all _ ps) by done.
    unfold stored_keys in Hk. apply not_elem_of_app in Hk as [Hk1 Hk2].
    simpl. rewrite lookup_insert_eq. simpl.
    rewrite !lookup_insert_ne by set_solver. by rewrite Hout.
  - intros k Hk. simpl. by rewrite lookup_insert_ne.
Qed.

(** Writing the three Flamenco keys of an entry a second time, with the
    same values, changes nothing. *)
Lemma flamenco_keys_rewritten (ps : gmap string value) a b c :
  <["flamenco_managers_settings" := c]>
    (<["flamenco_available_managers" := b]>
      (<["flamenco_manager_id" := a]>
        (<["flamenco_managers_settings" := c]>
          (<["flamenco_available_managers" := b]>
            (<["flamenco_manager_id" := a]> ps))))) =
  <["flamenco_managers_settings" := c]>
    (<["flamenco_available_managers" := b]>
      (<["flamenco_manager_id" := a]> ps)).
Proof.
  apply map_eq. intros k. rewrite !lookup_insert. by repeat case_decide.
Qed.

(** A successful [store] leaves a world on which [store] changes nothing. *)
Lemma store_fixed_point w w1 :
  project_settings_loading w = false → store w = Ok w1 → store w1 = Ok w1.
Proof.
  intros Hl H.
  destruct (store_inv _ _ Hl H) as (all & ps & ps' & pppm & Hall & Hps & Hsp & Hpppm & ->).
  destruct (store_simple_props_inv _ _ _ _ Hsp) as (ps'' & Heq & Hout & Hin).
  injection Heq as <-.
  unfold store. simpl. rewrite Hl. unfold prefs_get. simpl.
  rewrite lookup_insert_eq. simpl. rewrite lookup_insert_eq. simpl.
  rewrite store_simple_props_fixed; last first.
  { intros k Hk. destruct (simple_prop_not_flamenco_key k Hk) as (? & ? & ?).
    rewrite !lookup_insert_ne by done. by apply Hin. }
  unfold current_manager, current_project, manager_settings. walk.
  unfold set_prefs, set_idprop. simpl.
  by rewrite !insert_insert_eq, flamenco_keys_rewritten.
Qed.

(** C8: calling [store] twice in a row, with nothing changed in between,
    leaves the persisted ['project_settings'] mapping after the second call
    equal to what it was after the first. *)
Theorem store_idempotent w w1 :
  store w = Ok w1 →
  ∃ w2, store w1 = Ok w2 ∧ project_settings w2 = project_settings w1.
Proof.
  intros H. exists w1. split; [|done].
  destruct (project_settings_loading w) eqn:Hl.
  - unfold store in H. rewrite Hl in H. injection H as <-.
    unfold store. by rewrite Hl.
  - by apply (store_fixed_point w).
Qed.

(** C10: with no manager selected (the manager value is the empty string),
    a [store] that is not suppressed still saves that empty value as the
    project's ['flamenco_manager_id'] and saves, under that same empty key
    of ['flamenco_managers_settings'], the current job file path, job
    output path and strip count. *)
Theorem store_without_manager w :
  project_settings_loading w = false →
  storable w →
  truthy (VStr (current_manager w)) = false →
  ∃ w',
    store w = Ok w' ∧
    saved w' [current_project w; "flamenco_manager_id"] = Some (VStr (current_manager w)) ∧
    saved w' [current_project w; "flamenco_managers_settings"; current_manager w]
      = Some (manager_settings (prefs w)) ∧
    saved w' [current_project w; "flamenco_managers_settings"; current_manager w;
              "file_path"] = Some (VStr (flamenco_job_file_path (prefs w))) ∧
    saved w' [current_project w; "flamenco_managers_settings"; current_manager w;
              "output_path"] = Some (VStr (flamenco_job_output_path (prefs w))) ∧
    saved w' [current_project w; "flamenco_managers_settings"; current_manager w;
              "output_strip_components"]
      = Some (VInt (Z.of_N (flamenco_job_output_strip_components (prefs w)))).
Proof.
  intros Hl Hst _.
  destruct (store_total w Hl Hst) as [w' H]. exists w'. split; [done|].
  destruct (store_inv _ _ Hl H) as (all & ps & ps' & pppm & Hall & Hps & Hsp & Hpppm & ->).
  rewrite !saved_set_idprop. unfold manager_settings. by walk.
Qed.

(** ** Properties of [handle_project_update] *)

Lemma restored_from_refl w : restored_from w w.
Proof.
  repeat split. exists []. split; [|done]. unfold stamp. simpl. by rewrite app_nil_r.
Qed.

Lemma restored_from_trans w1 w2 w3 :
  restored_from w1 w2 → restored_from w2 w3 → restored_from w1 w3.
Proof.
  intros (Hl1 & Hc1 & Ha1 & Hf1 & Hp1 & Hi1 & evs1 & Ht1 & He1)
         (Hl2 & Hc2 & Ha2 & Hf2 & Hp2 & Hi2 & evs2 & Ht2 & He2).
  repeat split; try congruence.
  exists (evs1 ++ evs2). split; [|by apply Forall_app].
  rewrite Ht2, Ht1, Hl1. unfold stamp. by rewrite fmap_app, app_assoc.
Qed.

#[global] Instance restored_from_preorder : PreOrder restored_from.
Proof.
  split; [intros w; apply restored_from_refl|].
  intros w1 w2 w3. apply restored_from_trans.
Qed.

Lemma restored_from_write w p name :
  project p = project (prefs w) →
  idprops p = idprops (prefs w) →
  restored_from w (record_event (EvWrite name) (set_prefs p w)).
Proof.
  intros Hp Hi. repeat split; try done. exists [EvWrite name]. by split; [|repeat constructor].
Qed.

#[global] Instance same_attrs_preorder : PreOrder same_attrs.
Proof.
  split; [done|]. unfold same_attrs. intros w1 w2 w3 H1 H2. congruence.
Qed.

(** Statements that keep the world within a preorder. *)
Section Preserves.

Context (R : World → World → Prop) `{!PreOrder R}.

Lemma preserves_ret {A} (a : A) : preserves R (ret a).
Proof. intros w. simpl. reflexivity. Qed.

Lemma preserves_lift {A} (r : result A) : preserves R (lift r).
Proof. intros w. simpl. reflexivity. Qed.

Lemma preserves_preferences : preserves R preferences.
Proof. intros w. simpl. reflexivity. Qed.

Lemma preserves_hasattr name : preserves R (hasattr name).
Proof. intros w. simpl. reflexivity. Qed.

Lemma preserves_bind {A B} (c : M A) (k : A → M B) :
  preserves R c → (∀ a, preserves R (k a)) → preserves R (bind c k).
Proof.
  intros Hc Hk w. unfold bind. specialize (Hc w).
  destruct (c w) as [w' [a|e]]; simpl in *; [|done].
  etransitivity; [done|]. apply Hk.
Qed.

Lemma preserves_try_except_else {A B} (body : M A) exc (handler : M B) orelse :
  preserves R body → preserves R handler → (∀ a, preserves R (orelse a)) →
  preserves R (try_except_else body exc handler orelse).
Proof.
  intros Hb Hh Ho w. unfold try_except_else. specialize (Hb w).
  destruct (body w) as [w' [a|e]]; simpl in *.
  - etransitivity; [done|]. apply Ho.
  - case_decide; [|done]. etransitivity; [done|]. apply Hh.
Qed.

(** When the assignments preserve the relation, so does restoring the
    Flamenco settings. *)
Hypothesis preserves_set_available_managers :
  ∀ v, preserves R (set_available_managers v).
Hypothesis preserves_set_manager : ∀ v, preserves R (set_manager v).
Hypothesis preserves_set_job_file_path : ∀ v, preserves R (set_job_file_path v).
Hypothesis preserves_set_job_output_path : ∀ v, preserves R (set_job_output_path v).
Hypothesis preserves_set_job_output_strip_components :
  ∀ v, preserves R (set_job_output_strip_components v).
Hypothesis preserves_log_warning : preserves R log_warning.

Lemma preserves_restore_manager_settings pppm :
  preserves R (restore_manager_settings pppm).
Proof.
  unfold restore_manager_settings.
  repeat first [ apply preserves_bind; [|intros ?] | apply preserves_lift | done ].
Qed.

Lemma preserves_restore_manager ps : preserves R (restore_manager ps).
Proof.
  unfold restore_manager.
  apply preserves_bind; [apply preserves_lift|intros mid].
  destruct (truthy mid).
  - apply preserves_try_except_else; [done|done|intros selected].
    apply preserves_try_except_else; [apply preserves_lift|apply preserves_ret|].
    apply preserves_restore_manager_settings.
  - apply preserves_bind; [done|intros _]. apply preserves_ret.
Qed.

Lemma preserves_restore_flamenco_settings ps :
  preserves R (restore_flamenco_settings ps).
Proof.
  unfold restore_flamenco_settings.
  apply preserves_bind; [apply preserves_lift|intros mngrs].
  apply preserves_bind; [done|intros _].
  apply preserves_restore_manager.
Qed.

(** And, when [setattr] does too, the whole of loading. *)
Hypothesis preserves_setattr : ∀ name v, preserves R (setattr name v).

Lemma preserves_restore_simple_props ps names :
  preserves R (restore_simple_props ps names).
Proof.
  induction names as [|name rest IH]; simpl; [apply preserves_ret|].
  apply preserves_bind; [apply preserves_lift|intros in_ps].
  apply preserves_bind; [apply preserves_hasattr|intros has].
  apply preserves_bind; [|done].
  destruct (in_ps && has); [|apply preserves_ret].
  apply preserves_bind; [apply preserves_lift|done].
Qed.

Lemma preserves_load_project_settings project_id :
  preserves R (load_project_settings project_id).
Proof.
  unfold load_project_settings.
  apply preserves_bind; [apply preserves_preferences|intros p].
  apply preserves_bind; [apply preserves_lift|intros ps].
  destruct (negb (truthy ps)); [done|].
  unfold restore_settings.
  apply preserves_bind; [apply preserves_restore_simple_props|intros _].
  apply preserves_restore_flamenco_settings.
Qed.

End Preserves.

(** Loading only restores settings. *)
Lemma restores_load_project_settings project_id :
  preserves restored_from (load_project_settings project_id).
Proof.
  apply preserves_load_project_settings; try apply _.
  1, 7: by intros; intros w; apply restored_from_write.
  1-4: by assignment ltac:(by apply restored_from_write).
  intros w. repeat split. exists [EvLogWarning]. by split; [|repeat constructor].
Qed.

(** The loop over the simple properties only restores settings. *)
Lemma restores_restore_simple_props ps names :
  preserves restored_from (restore_simple_props ps names).
Proof.
  apply preserves_restore_simple_props; [apply _|].
  intros name v w. by apply restored_from_write.
Qed.

(** Restoring the Flamenco settings leaves the simple properties alone. *)
Lemma restore_flamenco_settings_attrs ps :
  preserves same_attrs (restore_flamenco_settings ps).
Proof.
  apply preserves_restore_flamenco_settings; try apply _; try done.
  all: by assignment ltac:(done).
Qed.

(** *** The two halves, run *)

Lemma restore_simple_props_run d names w :
  restore_simple_props (VDict d) names w =
  (foldl (λ w name, restore_one d name w) w names, Ok tt).
Proof.
  revert w. induction names as [|name rest IH]; intros w; [done|].
  simpl. unfold bind, lift, hasattr, restore_one at 2. simpl.
  destruct (d !! name) as [v|], (attrs (prefs w) !! name) as [x|]; simpl; apply IH.
Qed.

(** The loop touches [attrs] only. *)
Lemma restore_simple_props_frame d names w :
  let w' := foldl (λ w name, restore_one d name w) w names in
  flamenco_manager (prefs w') = flamenco_manager (prefs w) ∧
  flamenco_job_file_path (prefs w') = flamenco_job_file_path (prefs w) ∧
  flamenco_job_output_path (prefs w') = flamenco_job_output_path (prefs w) ∧
  flamenco_job_output_strip_components (prefs w') =
    flamenco_job_output_strip_components (prefs w).
Proof.
  revert w. induction names as [|name rest IH]; intros w; [done|].
  simpl. destruct (IH (restore_one d name w)) as (-> & -> & -> & ->).
  unfold restore_one. by destruct (d !! name), (attrs (prefs w) !! name).
Qed.

(** The loop writes simple properties only, at the loading flag it found. *)
Lemma restore_simple_props_trace d names w :
  let w' := foldl (λ w name, restore_one d name w) w names in
  project_settings_loading w' = project_settings_loading w ∧
  ∃ written,
    trace w' = trace w ++ stamp (project_settings_loading w) (EvWrite <$> written) ∧
    Forall (λ name, name ∈ names) written.
Proof.
  revert w. induction names as [|name rest IH]; intros w.
  - split; [done|]. exists []. split; [|done]. simpl. by rewrite app_nil_r.
  - simpl. destruct (IH (restore_one d name w)) as (Hl & written & Ht & Hw).
    assert (Hin : Forall (λ n, n ∈ name :: rest) written).
    { eapply Forall_impl; [done|]. intros n Hn. by right. }
    rewrite Hl, Ht. unfold restore_one.
    destruct (d !! name) as [v|], (attrs (prefs w) !! name) as [x|];
      try (split; [done|]; by exists written).
    split; [done|]. exists (name :: written). split.
    + simpl. by rewrite <- app_assoc.
    + constructor; [by left|done].
Qed.

#[local] Arguments restore_simple_props : simpl never.

(** *** Loading, case by case *)

Lemma truthy_dict_empty : truthy (VDict ∅) = false.
Proof. unfold truthy. by rewrite map_to_list_empty. Qed.

Lemma truthy_dict_lookup (d : gmap string value) k v :
  d !! k = Some v → truthy (VDict d) = true.
Proof.
  intros Hk. unfold truthy. destruct (map_to_list d) eqn:Hl; [|done].
  apply map_to_list_empty_iff in Hl. subst d. by rewrite lookup_empty in Hk.
Qed.

#[local] Arguments truthy : simpl never.

Lemma load_no_saved_entry w :
  no_saved_entry w →
  load_project_settings (current_project w) w = set_available_managers (VList []) w.
Proof.
  unfold no_saved_entry, project_settings, load_project_settings, bind, preferences,
    lift, prefs_get.
  intros [->|(all & -> & [Hn|Hn])]; simpl; rewrite ?lookup_empty, ?Hn; simpl.
  all: by rewrite truthy_dict_empty.
Qed.

Lemma load_saved_entry w d k v :
  saved w [current_project w] = Some (VDict d) →
  d !! k = Some v →
  load_project_settings (current_project w) w = restore_settings (VDict d) w.
Proof.
  unfold saved, project_settings, load_project_settings, bind, preferences, lift, prefs_get.
  intros Hs Hk. destruct (idprops (prefs w) !! "project_settings") as [[| | | |all]|];
    try done.
  simpl in *. destruct (all !! current_project w) as [x|]; [|done].
  simpl in *. injection Hs as ->. by rewrite (truthy_dict_lookup d k v).
Qed.

Lemma restore_settings_run d w :
  restore_settings (VDict d) w =
  restore_flamenco_settings (VDict d) (simple_props_restored d w).
Proof. unfold restore_settings, bind. by rewrite restore_simple_props_run. Qed.

(** *** The enum *)

Lemma enum_position_lookup s ids i :
  enum_position s ids = Some i → ids !! i = Some s.
Proof.
  revert i. induction ids as [|x ids IH]; intros i; simpl; [done|].
  destruct (String.eqb_spec x s) as [->|Hne].
  - by intros [= <-].
  - destruct (enum_position s ids) as [j|]; simpl; [|done].
    intros [= <-]. by apply IH.
Qed.

Lemma enum_position_member s ids : s ∈ ids → is_Some (enum_position s ids).
Proof.
  induction ids as [|x ids IH]; intros Hin; [by apply elem_of_nil in Hin|].
  simpl. destruct (String.eqb_spec x s) as [->|Hne]; [by eexists|].
  apply elem_of_cons in Hin as [->|Hin]; [done|].
  destruct (IH Hin) as [j ->]. by eexists.
Qed.

Lemma enum_position_not_member s ids : s ∉ ids → enum_position s ids = None.
Proof.
  intros Hs. destruct (enum_position s ids) as [i|] eqn:He; [|done].
  destruct Hs. apply enum_position_lookup in He. by eapply list_elem_of_lookup_2.
Qed.

Lemma truthy_str s : s ≠ "" → truthy (VStr s) = true.
Proof.
  intros Hs. unfold truthy. destruct (String.eqb_spec s ""); [done|done].
Qed.

(** An identifier that is offered gets selected, and is what the enum
    reads afterwards. *)
Lemma enum_set_member A s :
  s ≠ "" → s ∈ manager_ids A →
  ∃ i, enum_set A (VStr s) = Some i ∧ enum_get A i = s.
Proof.
  intros Hne Hin. unfold enum_set, enum_get.
  destruct (String.eqb_spec s ""); [done|].
  destruct (enum_position_member s _ Hin) as [i Hi]. exists i. split; [done|].
  by rewrite (enum_position_lookup _ _ _ Hi).
Qed.

Lemma enum_set_not_member A s : s ∉ manager_ids A → enum_set A (VStr s) = None.
Proof.
  intros Hs. unfold enum_set. destruct (String.eqb s ""); [done|].
  by apply enum_position_not_member.
Qed.

(** Only a non-empty string gets selected, and it is what the enum reads
    afterwards. *)
Lemma enum_set_inv A v i :
  enum_set A v = Some i → ∃ s, v = VStr s ∧ s ≠ "" ∧ enum_get A i = s.
Proof.
  unfold enum_set, enum_get. destruct v as [|s| | |]; try done.
  destruct (String.eqb_spec s ""); [done|]. intros Hi. exists s.
  by rewrite (enum_position_lookup _ _ _ Hi).
Qed.

Lemma set_manager_refused w v :
  enum_set (available_managers (flamenco_manager (prefs w))) v = None →
  set_manager v w = (w, Raise TypeError).
Proof. intros He. unfold set_manager. cbv zeta. by rewrite He. Qed.

Lemma set_manager_selected w v i :
  enum_set (available_managers (flamenco_manager (prefs w))) v = Some i →
  ∃ s w', v = VStr s ∧ s ≠ "" ∧
        set_manager v w = (w', Ok s) ∧
        manager_index (flamenco_manager (prefs w')) = i ∧
        manager (flamenco_manager (prefs w')) = s ∧
        status (flamenco_manager (prefs w')) = status (flamenco_manager (prefs w)) ∧
        available_managers (flamenco_manager (prefs w')) =
          available_managers (flamenco_manager (prefs w)) ∧
        flamenco_job_file_path (prefs w') = flamenco_job_file_path (prefs w) ∧
        flamenco_job_output_path (prefs w') = flamenco_job_output_path (prefs w) ∧
        flamenco_job_output_strip_components (prefs w') =
          flamenco_job_output_strip_components (prefs w) ∧
        attrs (prefs w') = attrs (prefs w) ∧
        project_settings_loading w' = project_settings_loading w ∧
        trace w' =
          trace w ++ [(project_settings_loading w, EvWrite "flamenco_manager.manager")].
Proof.
  intros He. destruct (enum_set_inv _ _ _ He) as (s & -> & Hne & Hget).
  exists s. eexists. split; [done|]. split; [done|].
  unfold set_manager. cbv zeta. rewrite He. split; [reflexivity|]. by repeat split.
Qed.

(** *** Restoring the Flamenco settings, case by case *)

(** What the assignment of the managers list leaves. *)
Lemma set_available_managers_run v w :
  ∃ w', set_available_managers v w = (w', Ok tt) ∧
        available_managers (flamenco_manager (prefs w')) = v ∧
        manager_index (flamenco_manager (prefs w')) =
          manager_index (flamenco_manager (prefs w)) ∧
        status (flamenco_manager (prefs w')) = status (flamenco_manager (prefs w)) ∧
        flamenco_job_file_path (prefs w') = flamenco_job_file_path (prefs w) ∧
        flamenco_job_output_path (prefs w') = flamenco_job_output_path (prefs w) ∧
        flamenco_job_output_strip_components (prefs w') =
          flamenco_job_output_strip_components (prefs w) ∧
        project_settings_loading w' = project_settings_loading w ∧
        trace w' =
          trace w ++
          [(project_settings_loading w, EvWrite "flamenco_manager.available_managers")].
Proof. eexists. split; [reflexivity|]. by repeat split. Qed.

(** The managers list is restored first, whatever follows. *)
Lemma restore_flamenco_settings_run d w :
  restore_flamenco_settings (VDict d) w =
  restore_manager (VDict d) (set_available_managers (saved_managers d) w).1.
Proof. reflexivity. Qed.

(** Up to the selection of the saved manager. *)
Lemma restore_flamenco_settings_start d w mid :
  d !! "flamenco_manager_id" = Some mid →
  truthy mid = true →
  restore_flamenco_settings (VDict d) w =
  try_except_else (set_manager mid) TypeError log_warning
    (λ selected,
       try_except_else
         (lift (fms ← py_getitem (VDict d) "flamenco_managers_settings";
                py_getitem fms selected))
         KeyError (ret tt) restore_manager_settings)
    (set_available_managers (saved_managers d) w).1.
Proof.
  intros Hmid Ht. rewrite restore_flamenco_settings_run.
  unfold restore_manager, bind at 1, lift at 1, py_get.
  rewrite Hmid. cbn [from_option id]. by rewrite Ht.
Qed.

(** The saved manager is not among the restored ones: a warning, and that
    is all. *)
Lemma restore_flamenco_settings_not_found d w mid :
  d !! "flamenco_manager_id" = Some mid →
  truthy mid = true →
  enum_set (saved_managers d) mid = None →
  restore_flamenco_settings (VDict d) w =
  log_warning (set_available_managers (saved_managers d) w).1.
Proof.
  intros Hmid Ht He. rewrite (restore_flamenco_settings_start d w mid Hmid Ht).
  unfold try_except_else. rewrite set_manager_refused by exact He.
  by rewrite decide_True.
Qed.

(** The manager got selected, and nothing is saved for it. *)
Lemma restore_flamenco_settings_unsaved d w s :
  d !! "flamenco_manager_id" = Some (VStr s) →
  s ≠ "" →
  s ∈ manager_ids (saved_managers d) →
  (d !! "flamenco_managers_settings" = None ∨
   ∃ f, d !! "flamenco_managers_settings" = Some (VDict f) ∧ f !! s = None) →
  ∃ w', restore_flamenco_settings (VDict d) w = (w', Ok tt) ∧
        manager (flamenco_manager (prefs w')) = s ∧
        available_managers (flamenco_manager (prefs w')) = saved_managers d ∧
        paths_kept w w'.
Proof.
  intros Hmid Hne Hin Hf.
  destruct (enum_set_member (saved_managers d) s Hne Hin) as (i & He & _).
  destruct (set_manager_selected (set_available_managers (saved_managers d) w).1
              (VStr s) i He)
    as (s' & w' & [= <-] & _ & Hrun & _ & Hm & _ & Ha & Hfp & Hop & Hsc & _).
  exists w'. split; [|by repeat split].
  rewrite (restore_flamenco_settings_start d w _ Hmid (truthy_str s Hne)).
  unfold try_except_else at 1. rewrite Hrun.
  unfold try_except_else, lift, py_getitem.
  destruct Hf as [->|(f & -> & Hs)]; cbn [mbind result_bind]; rewrite ?Hs.
  all: by rewrite decide_True.
Qed.

(** The manager got selected, and a value is saved for it. *)
Lemma restore_flamenco_settings_selected d w s f pmv :
  d !! "flamenco_manager_id" = Some (VStr s) →
  s ≠ "" →
  s ∈ manager_ids (saved_managers d) →
  d !! "flamenco_managers_settings" = Some (VDict f) →
  f !! s = Some pmv →
  ∃ w', restore_flamenco_settings (VDict d) w = restore_manager_settings pmv w' ∧
        manager (flamenco_manager (prefs w')) = s ∧
        available_managers (flamenco_manager (prefs w')) = saved_managers d ∧
        status (flamenco_manager (prefs w')) = status (flamenco_manager (prefs w)) ∧
        attrs (prefs w') = attrs (prefs w) ∧
        paths_kept w w' ∧
        project_settings_loading w' = project_settings_loading w ∧
        trace w' =
          trace w ++
          stamp (project_settings_loading w)
            [EvWrite "flamenco_manager.available_managers";
             EvWrite "flamenco_manager.manager"].
Proof.
  intros Hmid Hne Hin Hf Hs.
  destruct (enum_set_member (saved_managers d) s Hne Hin) as (i & He & _).
  destruct (set_manager_selected (set_available_managers (saved_managers d) w).1
              (VStr s) i He)
    as (s' & w' & [= <-] & _ & Hrun & _ & Hm & Hst & Ha & Hfp & Hop & Hsc & Hat & Hl & Ht).
  exists w'. split.
  - rewrite (restore_flamenco_settings_start d w _ Hmid (truthy_str s Hne)).
    unfold try_except_else at 1. rewrite Hrun.
    unfold try_except_else, lift, py_getitem. rewrite Hf. cbn [mbind result_bind].
    by rewrite Hs.
  - repeat split; try done.
    rewrite Ht. cbn [set_available_managers update fst record_event set_prefs trace
                       project_settings_loading stamp fmap list_fmap].
      by rewrite <- app_assoc.
Qed.

(** The three assignments on a complete, well-typed settings mapping. *)
Lemma restore_manager_settings_complete pm a b n w :
  pm !! "file_path" = Some (VStr a) →
  pm !! "output_path" = Some (VStr b) →
  pm !! "output_strip_components" = Some (VInt n) →
  ∃ w', restore_manager_settings (VDict pm) w = (w', Ok tt) ∧
        flamenco_manager (prefs w') = flamenco_manager (prefs w) ∧
        attrs (prefs w') = attrs (prefs w) ∧
        flamenco_job_file_path (prefs w') = a ∧
        flamenco_job_output_path (prefs w') = b ∧
        flamenco_job_output_strip_components (prefs w') = Z.to_N n ∧
        project_settings_loading w' = project_settings_loading w ∧
        trace w' =
          trace w ++
          stamp (project_settings_loading w)
            [EvWrite "flamenco_job_file_path"; EvWrite "flamenco_job_output_path";
             EvWrite "flamenco_job_output_strip_components"].
Proof.
  intros Ha Hb Hn. eexists. split.
  - unfold restore_manager_settings, bind, lift, py_getitem.
    rewrite Ha. cbn [set_job_file_path]. rewrite Hb. cbn [set_job_output_path].
    rewrite Hn. reflexivity.
  - repeat split. cbn [record_event set_prefs trace project_settings_loading stamp
                       fmap list_fmap].
    by rewrite <- !app_assoc.
Qed.

(** The manager got selected, and its three settings are saved. *)
Lemma restore_flamenco_settings_saved d w s f pm a b n :
  d !! "flamenco_manager_id" = Some (VStr s) →
  s ≠ "" →
  s ∈ manager_ids (saved_managers d) →
  d !! "flamenco_managers_settings" = Some (VDict f) →
  f !! s = Some (VDict pm) →
  pm !! "file_path" = Some (VStr a) →
  pm !! "output_path" = Some (VStr b) →
  pm !! "output_strip_components" = Some (VInt n) →
  ∃ w', restore_flamenco_settings (VDict d) w = (w', Ok tt) ∧
        manager (flamenco_manager (prefs w')) = s ∧
        available_managers (flamenco_manager (prefs w')) = saved_managers d ∧
        flamenco_job_file_path (prefs w') = a ∧
        flamenco_job_output_path (prefs w') = b ∧
        flamenco_job_output_strip_components (prefs w') = Z.to_N n ∧
        trace w' =
          trace w ++
          stamp (project_settings_loading w)
            [EvWrite "flamenco_manager.available_managers";
             EvWrite "flamenco_manager.manager";
             EvWrite "flamenco_job_file_path"; EvWrite "flamenco_job_output_path";
             EvWrite "flamenco_job_output_strip_components"].
Proof.
  intros Hmid Hne Hin Hf Hs Ha Hb Hn.
  destruct (restore_flamenco_settings_selected d w s f (VDict pm) Hmid Hne Hin Hf Hs)
    as (w1 & -> & Hm & Hav & _ & _ & _ & Hl & Ht).
  destruct (restore_manager_settings_complete pm a b n w1 Ha Hb Hn)
    as (w' & -> & Hg & _ & Hfp & Hop & Hsc & _ & Ht').
  exists w'. split; [done|]. rewrite Hg. repeat split; try done.
  rewrite Ht', Ht, Hl. unfold stamp. cbn [fmap list_fmap]. by rewrite <- app_assoc.
Qed.

(** ** More on [store] *)

(** A [store] that gets through its reads returns, with the world of
    [store_inv]. *)
Lemma store_run w all ps ps' pppm :
  project_settings_loading w = false →
  prefs_get (prefs w) "project_settings" (VDict ∅) = VDict all →
  default (VDict ∅) (all !! current_project w) = VDict ps →
  store_simple_props (prefs w) PROJECT_SPECIFIC_SIMPLE_PROPS (VDict ps) = Ok (VDict ps') →
  default (VDict ∅) (ps !! "flamenco_managers_settings") = VDict pppm →
  store w =
  Ok (set_prefs
        (set_idprop "project_settings"
           (VDict (<[current_project w :=
              VDict (<["flamenco_managers_settings" :=
                       VDict (<[current_manager w := manager_settings (prefs w)]> pppm)]>
                     (<["flamenco_available_managers" :=
                          available_managers (flamenco_manager (prefs w))]>
                      (<["flamenco_manager_id" := VStr (current_manager w)]> ps')))]> all))
           (prefs w)) w).
Proof.
  intros Hl Hall Hps Hsp Hpppm.
  destruct (store_simple_props_inv _ _ _ _ Hsp) as (ps'' & Heq & Hout & _).
  injection Heq as <-. unfold store. rewrite Hl, Hall. simpl.
  unfold current_project in Hps. rewrite Hps, Hsp. simpl.
  rewrite !lookup_insert_ne by done.
  rewrite Hout by apply managers_settings_key_not_simple_prop.
  by rewrite Hpppm.
Qed.

(** X1: a [store] that is not suppressed and returns has persisted, in the
    entry of the current project, the live value of every simple
    property, the selected manager's id, the list of available managers
    and, under that manager's id, the three job path settings. *)
Theorem store_persists_live_values w w' :
  project_settings_loading w = false →
  store w = Ok w' →
  (∀ name, name ∈ PROJECT_SPECIFIC_SIMPLE_PROPS →
     is_Some (attrs (prefs w) !! name) ∧
     saved w' [current_project w; name] = attrs (prefs w) !! name) ∧
  saved w' [current_project w; "flamenco_manager_id"] = Some (VStr (current_manager w)) ∧
  saved w' [current_project w; "flamenco_available_managers"] =
    Some (available_managers (flamenco_manager (prefs w))) ∧
  saved w' [current_project w; "flamenco_managers_settings"; current_manager w] =
    Some (manager_settings (prefs w)).
Proof.
  intros Hl H.
  destruct (store_inv _ _ Hl H) as (all & ps & ps' & pppm & Hall & Hps & Hsp & Hpppm & ->).
  destruct (store_simple_props_inv _ _ _ _ Hsp) as (ps'' & Heq & Hout & Hin).
  injection Heq as <-.
  repeat split; rewrite ?saved_set_idprop.
  - by apply Hin.
  - destruct (simple_prop_not_flamenco_key name) as (? & ? & ?); [done|].
    destruct (Hin name) as [Hname [v Hv]]; [done|].
    walk. rewrite Hname, Hv. done.
  - by walk.
  - by walk.
  - by walk.
Qed.

(** X2: [store] reads every simple property with [getattr] and no default:
    on preferences that lack one of them, a [store] that is not
    suppressed raises [AttributeError], whatever is persisted. *)
Theorem store_without_simple_property w name :
  project_settings_loading w = false →
  name ∈ PROJECT_SPECIFIC_SIMPLE_PROPS →
  attrs (prefs w) !! name = None →
  store w = Raise AttributeError.
Proof.
  intros Hl Hname Hnone. apply list_elem_of_singleton in Hname as ->.
  unfold store. rewrite Hl.
  destruct (prefs_get (prefs w) "project_settings" (VDict ∅)); try done.
  unfold py_get, store_simple_props, PROJECT_SPECIFIC_SIMPLE_PROPS.
  cbn [mbind result_bind]. by rewrite Hnone.
Qed.

(** *** Equalities, field by field *)

Lemma world_eq w1 w2 :
  prefs w1 = prefs w2 →
  project_settings_loading w1 = project_settings_loading w2 →
  extensions_cache w1 = extensions_cache w2 →
  attract_active w1 = attract_active w2 →
  flamenco_active w1 = flamenco_active w2 →
  trace w1 = trace w2 →
  w1 = w2.
Proof. destruct w1, w2. simpl. by intros -> -> -> -> -> ->. Qed.

Lemma group_eq g h :
  manager_index g = manager_index h →
  status g = status h →
  available_managers g = available_managers h →
  g = h.
Proof. destruct g, h. simpl. by intros -> -> ->. Qed.

Lemma prefs_eq p q :
  project p = project q →
  attrs p = attrs q →
  flamenco_manager p = flamenco_manager q →
  flamenco_job_file_path p = flamenco_job_file_path q →
  flamenco_job_output_path p = flamenco_job_output_path q →
  flamenco_job_output_strip_components p = flamenco_job_output_strip_components q →
  idprops p = idprops q →
  p = q.
Proof. destruct p, q. simpl. by intros -> -> -> -> -> -> ->. Qed.

Lemma stamp_inj b evs1 evs2 : stamp b evs1 = stamp b evs2 → evs1 = evs2.
Proof.
  unfold stamp. revert evs2.
  induction evs1 as [|e evs1 IH]; intros [|e2 evs2]; simpl; try done.
  intros [= -> H]. f_equal. by apply IH.
Qed.

Lemma saved_entry_inv w pid v :
  saved w [pid] = Some v →
  ∃ all, project_settings w = Some (VDict all) ∧ all !! pid = Some v.
Proof.
  unfold saved. destruct (project_settings w) as [[| | | |all]|]; try done.
  simpl. destruct (all !! pid) as [x|] eqn:Hx; [|done]. simpl.
  intros [= <-]. by exists all.
Qed.

(** With no managers to offer, the enum reads as the empty identifier,
    whatever position it keeps. *)
Lemma enum_get_no_managers mngrs position :
  truthy mngrs = false → enum_get mngrs position = "".
Proof.
  intros Ht. unfold enum_get, manager_ids, available_managers_cb. rewrite Ht.
  destruct position as [|position]; [done|]. by destruct position.
Qed.

(** *** More frames *)

#[global] Instance same_status_preorder : PreOrder same_status.
Proof.
  split; [done|]. unfold same_status. intros w1 w2 w3 H1 H2. congruence.
Qed.

(** Selecting the manager and restoring its paths only restores
    settings. *)
Lemma restores_restore_manager ps : preserves restored_from (restore_manager ps).
Proof.
  apply preserves_restore_manager; try apply _.
  1-4: by assignment ltac:(by apply restored_from_write).
  intros w. repeat split. exists [EvLogWarning]. by split; [|repeat constructor].
Qed.

(** Loading never touches the status of the manager group. *)
Lemma load_project_settings_status project_id :
  preserves same_status (load_project_settings project_id).
Proof.
  apply preserves_load_project_settings; try apply _; try done.
  all: by assignment ltac:(done).
Qed.

(** What the loop makes of each property, saved or not, listed or not. *)
Lemma restore_simple_props_attrs d names w name :
  attrs (prefs (foldl (λ w name, restore_one d name w) w names)) !! name =
  match d !! name, attrs (prefs w) !! name with
  | Some v, Some _ => if decide (name ∈ names) then Some v else attrs (prefs w) !! name
  | _, _ => attrs (prefs w) !! name
  end.
Proof.
  revert w. induction names as [|n rest IH]; intros w.
  - simpl. destruct (d !! name), (attrs (prefs w) !! name); try done.
    all: by rewrite decide_False by apply not_elem_of_nil.
  - simpl. rewrite IH. unfold restore_one.
    destruct (decide (n = name)) as [->|Hne].
    + destruct (d !! name) as [v|] eqn:Hd, (attrs (prefs w) !! name) as [x|] eqn:Ha;
        simpl; rewrite ?Ha; try done.
      rewrite lookup_insert_eq. rewrite (decide_True (P := name ∈ name :: rest)) by by left.
      by destruct (decide (name ∈ rest)).
    + assert (Hsame : attrs (prefs
                (match d !! n, attrs (prefs w) !! n with
                 | Some v, Some _ =>
                     record_event (EvWrite n) (set_prefs (set_attr n v (prefs w)) w)
                 | _, _ => w
                 end)) !! name = attrs (prefs w) !! name).
      { destruct (d !! n), (attrs (prefs w) !! n); try done.
        simpl. by rewrite lookup_insert_ne. }
      rewrite Hsame.
      destruct (d !! name) as [v|], (attrs (prefs w) !! name) as [x|]; try done.
      destruct (decide (name ∈ rest)) as [Hr|Hr].
      * rewrite decide_True; [done|by right].
      * rewrite decide_False; [done|]. intros Hc. apply elem_of_cons in Hc as [?|?]; done.
Qed.

(** The three assignments stop at the first setting that is missing or
    not of the property's type. *)
Lemma restore_manager_settings_run pm w :
  (restore_manager_settings (VDict pm) w).2 = restoring_outcome pm ∧
  flamenco_job_file_path (prefs (restore_manager_settings (VDict pm) w).1) =
    file_path_after pm (flamenco_job_file_path (prefs w)) ∧
  flamenco_job_output_path (prefs (restore_manager_settings (VDict pm) w).1) =
    output_path_after pm (flamenco_job_output_path (prefs w)) ∧
  flamenco_job_output_strip_components (prefs (restore_manager_settings (VDict pm) w).1) =
    strip_components_after pm (flamenco_job_output_strip_components (prefs w)) ∧
  flamenco_manager (prefs (restore_manager_settings (VDict pm) w).1) =
    flamenco_manager (prefs w) ∧
  attrs (prefs (restore_manager_settings (VDict pm) w).1) = attrs (prefs w).
Proof.
  unfold restore_manager_settings, bind, lift, py_getitem, restoring_outcome,
    file_path_after, output_path_after, strip_components_after.
  destruct (pm !! "file_path") as [[|a| | |]|]; try done.
  cbn [set_job_file_path].
  destruct (pm !! "output_path") as [[|b| | |]|]; try done.
  cbn [set_job_output_path].
  by destruct (pm !! "output_strip_components") as [[| |n| |]|].
Qed.

(** What restoring the Flamenco settings of an entry leaves, in every
    branch. *)
Lemma restore_flamenco_settings_prefs d w :
  attrs (prefs (restore_flamenco_settings (VDict d) w).1) = attrs (prefs w) ∧
  flamenco_manager (prefs (restore_flamenco_settings (VDict d) w).1) =
    {| manager_index :=
         default (manager_index (flamenco_manager (prefs w))) (selection d);
       status := status (flamenco_manager (prefs w));
       available_managers := saved_managers d |} ∧
  flamenco_job_file_path (prefs (restore_flamenco_settings (VDict d) w).1) =
    match selected_settings d with
    | Some pm => file_path_after pm (flamenco_job_file_path (prefs w))
    | None => flamenco_job_file_path (prefs w)
    end ∧
  flamenco_job_output_path (prefs (restore_flamenco_settings (VDict d) w).1) =
    match selected_settings d with
    | Some pm => output_path_after pm (flamenco_job_output_path (prefs w))
    | None => flamenco_job_output_path (prefs w)
    end ∧
  flamenco_job_output_strip_components (prefs (restore_flamenco_settings (VDict d) w).1) =
    match selected_settings d with
    | Some pm =>
        strip_components_after pm (flamenco_job_output_strip_components (prefs w))
    | None => flamenco_job_output_strip_components (prefs w)
    end.
Proof.
  pose proof (restore_flamenco_settings_attrs (VDict d) w) as Hattrs.
  split; [exact Hattrs|]. clear Hattrs.
  unfold selected_settings, selection, saved_manager_id.
  rewrite restore_flamenco_settings_run.
  destruct (set_available_managers_run (saved_managers d) w)
    as (wA & -> & HA & Hi & Hst & Hfp & Hop & Hsc & _).
  cbn [fst]. rewrite <- Hi, <- Hst, <- Hfp, <- Hop, <- Hsc, <- HA.
  clear Hi Hst Hfp Hop Hsc. revert HA. generalize (saved_managers d). intros A HA.
  remember (restore_manager (VDict d) wA) as R eqn:HR.
  unfold restore_manager, bind, lift, py_get, try_except_else in HR.
  destruct (truthy (default VNone (d !! "flamenco_manager_id"))) eqn:Ht.
  - destruct (enum_set (available_managers (flamenco_manager (prefs wA)))
                (default VNone (d !! "flamenco_manager_id"))) as [i|] eqn:He.
    + destruct (set_manager_selected wA _ i He)
        as (s & wS & Hv & Hne & HS & HiS & HmS & HstS & HAS & HfpS & HopS & HscS & _).
      rewrite HS in HR. rewrite Hv. unfold py_getitem in HR.
      assert (Hg : flamenco_manager (prefs wS) =
                   {| manager_index := i;
                      status := status (flamenco_manager (prefs wA));
                      available_managers :=
                        available_managers (flamenco_manager (prefs wA)) |})
        by by apply group_eq.
      cbn [from_option id].
      destruct (d !! "flamenco_managers_settings") as [fms|];
        cbn [mbind result_bind] in HR; [|subst R; by rewrite decide_True].
      destruct fms as [| | | |f]; try by subst R.
      destruct (f !! s) as [pmv|]; [|subst R; by rewrite decide_True].
      destruct pmv as [| | | |pm];
        try (unfold restore_manager_settings, bind, lift, py_getitem in HR; by subst R).
      destruct (restore_manager_settings_run pm wS) as (_ & Hfp' & Hop' & Hsc' & Hm' & _).
      subst R. by rewrite Hfp', Hop', Hsc', Hm', HfpS, HopS, HscS, Hg.
    + rewrite set_manager_refused in HR by exact He.
      rewrite decide_True in HR by done. subst R. cbn [log_warning update fst].
      by repeat split; try apply group_eq.
  - assert (He : enum_set (available_managers (flamenco_manager (prefs wA))) VNone = None)
      by done.
    rewrite set_manager_refused in HR by exact He. subst R. cbn [fst].
    by repeat split; try apply group_eq.
Qed.

(** ** [handle_project_update], run *)

Section Load.

Variable project_extensions_impl : string → gset string.

Lemma switch_extensions_run w :
  switch_extensions project_extensions_impl (current_project w) (set_loading true w) =
  (switched project_extensions_impl w, Ok tt).
Proof.
  unfold switch_extensions, bind, project_extensions_cache_clear, deactivate,
    activate, project_extensions, update, ret.
  match goal with
  | |- context [extensions_cache ?W !! _] =>
      change (extensions_cache W) with (∅ : gmap string (gset string))
  end.
  rewrite lookup_empty, insert_empty.
  unfold switched, switch_events, enabled_events, stamp.
  destruct (decide ("attract" ∈ project_extensions_impl (current_project w))) as [Ha|Ha],
    (decide ("flamenco" ∈ project_extensions_impl (current_project w))) as [Hf|Hf].
  all: first [rewrite (bool_decide_eq_true_2 _ Ha) | rewrite (bool_decide_eq_false_2 _ Ha)].
  all: first [rewrite (bool_decide_eq_true_2 _ Hf) | rewrite (bool_decide_eq_false_2 _ Hf)].
  all: f_equal; apply world_eq; try reflexivity.
  all: simpl; by rewrite <- ?app_assoc.
Qed.

Lemma handle_project_update_run w :
  handle_project_update project_extensions_impl w =
  let (w', r) := load_project_settings (current_project w) (switched project_extensions_impl w) in
  (set_loading false w', r).
Proof.
  unfold handle_project_update, mark_as_loading, bind at 1, preferences at 1.
  unfold bind at 1. simpl.
  change (project (prefs w)) with (current_project w).
  by rewrite switch_extensions_run.
Qed.

Lemma handle_project_update_no_saved_entry w :
  no_saved_entry w →
  handle_project_update project_extensions_impl w =
  (set_loading false (set_available_managers (VList []) (switched project_extensions_impl w)).1, Ok tt).
Proof.
  intros H. rewrite handle_project_update_run.
  change (current_project w) with (current_project (switched project_extensions_impl w)).
  by rewrite (load_no_saved_entry (switched project_extensions_impl w) H).
Qed.

Lemma handle_project_update_saved_entry w d k v :
  saved w [current_project w] = Some (VDict d) →
  d !! k = Some v →
  handle_project_update project_extensions_impl w =
  let (w', r) :=
    restore_flamenco_settings (VDict d) (simple_props_restored d (switched project_extensions_impl w)) in
  (set_loading false w', r).
Proof.
  intros H Hk. rewrite handle_project_update_run.
  change (current_project w) with (current_project (switched project_extensions_impl w)).
  by rewrite (load_saved_entry (switched project_extensions_impl w) d k v H Hk), restore_settings_run.
Qed.

Lemma simple_props_restored_paths d w :
  paths_kept w (simple_props_restored d (switched project_extensions_impl w)) ∧
  flamenco_manager (prefs (simple_props_restored d (switched project_extensions_impl w))) =
    flamenco_manager (prefs w).
Proof.
  destruct (restore_simple_props_frame d PROJECT_SPECIFIC_SIMPLE_PROPS (switched project_extensions_impl w))
    as (Hm & Hf & Ho & Hs).
  by repeat split.
Qed.

(** What no run changes. *)
Lemma loaded_idprops w :
  idprops (prefs (loaded project_extensions_impl w)) = idprops (prefs w) ∧
  current_project (loaded project_extensions_impl w) = current_project w ∧
  project_settings_loading (loaded project_extensions_impl w) = false ∧
  status (flamenco_manager (prefs (loaded project_extensions_impl w))) =
    status (flamenco_manager (prefs w)).
Proof.
  unfold loaded. rewrite handle_project_update_run.
  pose proof (restores_load_project_settings (current_project w)
                (switched project_extensions_impl w)) as H.
  pose proof (load_project_settings_status (current_project w)
                (switched project_extensions_impl w)) as Hs.
  destruct (load_project_settings _ _) as [w' r].
  destruct H as (_ & _ & _ & _ & Hp & Hi & _). by repeat split.
Qed.

(** The simple properties after a run on a non-empty entry. *)
Lemma loaded_attrs w d k v name :
  saved w [current_project w] = Some (VDict d) →
  d !! k = Some v →
  attrs (prefs (loaded project_extensions_impl w)) !! name =
  match d !! name, attrs (prefs w) !! name with
  | Some x, Some _ =>
      if decide (name ∈ PROJECT_SPECIFIC_SIMPLE_PROPS) then Some x
      else attrs (prefs w) !! name
  | _, _ => attrs (prefs w) !! name
  end.
Proof.
  intros Hd Hk. unfold loaded.
  rewrite (handle_project_update_saved_entry w d _ _ Hd Hk).
  pose proof (restore_flamenco_settings_attrs (VDict d)
                (simple_props_restored d (switched project_extensions_impl w))) as Hkeep.
  destruct (restore_flamenco_settings _ _) as [w' r].
  unfold same_attrs in Hkeep. cbn [fst set_loading prefs] in Hkeep |- *.
  rewrite Hkeep. unfold simple_props_restored.
  by rewrite restore_simple_props_attrs.
Qed.

(** The Flamenco part of the preferences after a run on a non-empty
    entry, in terms of the entry and of the preferences before. *)
Lemma loaded_flamenco w d k v :
  saved w [current_project w] = Some (VDict d) →
  d !! k = Some v →
  flamenco_manager (prefs (loaded project_extensions_impl w)) =
    {| manager_index :=
         default (manager_index (flamenco_manager (prefs w))) (selection d);
       status := status (flamenco_manager (prefs w));
       available_managers := saved_managers d |} ∧
  flamenco_job_file_path (prefs (loaded project_extensions_impl w)) =
    match selected_settings d with
    | Some pm => file_path_after pm (flamenco_job_file_path (prefs w))
    | None => flamenco_job_file_path (prefs w)
    end ∧
  flamenco_job_output_path (prefs (loaded project_extensions_impl w)) =
    match selected_settings d with
    | Some pm => output_path_after pm (flamenco_job_output_path (prefs w))
    | None => flamenco_job_output_path (prefs w)
    end ∧
  flamenco_job_output_strip_components (prefs (loaded project_extensions_impl w)) =
    match selected_settings d with
    | Some pm =>
        strip_components_after pm (flamenco_job_output_strip_components (prefs w))
    | None => flamenco_job_output_strip_components (prefs w)
    end.
Proof.
  intros Hd Hk. unfold loaded.
  rewrite (handle_project_update_saved_entry w d k v Hd Hk).
  destruct (restore_flamenco_settings_prefs d
              (simple_props_restored d (switched project_extensions_impl w)))
    as (_ & Hg & Hfp & Hop & Hsc).
  destruct (simple_props_restored_paths d w) as ((Hfp0 & Hop0 & Hsc0) & Hm0).
  destruct (restore_flamenco_settings _ _) as [w' r].
  cbn [fst set_loading prefs] in *.
  rewrite Hg, Hfp, Hop, Hsc, Hfp0, Hop0, Hsc0, Hm0. done.
Qed.

(** A run on an entry whose saved manager is offered and has its three
    settings saved, each of the property's type. *)
Lemma loaded_complete_settings w d s f pm a b n :
  saved w [current_project w] = Some (VDict d) →
  d !! "flamenco_manager_id" = Some (VStr s) →
  s ≠ "" →
  s ∈ manager_ids (saved_managers d) →
  d !! "flamenco_managers_settings" = Some (VDict f) →
  f !! s = Some (VDict pm) →
  pm !! "file_path" = Some (VStr a) →
  pm !! "output_path" = Some (VStr b) →
  pm !! "output_strip_components" = Some (VInt n) →
  outcome project_extensions_impl w = Ok tt ∧
  manager (flamenco_manager (prefs (loaded project_extensions_impl w))) = s ∧
  available_managers (flamenco_manager (prefs (loaded project_extensions_impl w))) =
    saved_managers d ∧
  flamenco_job_file_path (prefs (loaded project_extensions_impl w)) = a ∧
  flamenco_job_output_path (prefs (loaded project_extensions_impl w)) = b ∧
  flamenco_job_output_strip_components (prefs (loaded project_extensions_impl w)) =
    Z.to_N n.
Proof.
  intros Hd Hmid Hne Hin Hf Hs Ha Hb Hn. unfold outcome, loaded.
  rewrite (handle_project_update_saved_entry w d _ _ Hd Hmid).
  destruct (restore_flamenco_settings_saved d
              (simple_props_restored d (switched project_extensions_impl w))
              s f pm a b n Hmid Hne Hin Hf Hs Ha Hb Hn)
    as (w' & -> & Hm & Hav & Hfp & Hop & Hsc & _).
  by repeat split.
Qed.

(** The history of a run on a non-empty entry, after the switch of
    extensions: writes of simple properties, the write of the managers
    list, and what restoring the manager adds. *)
Lemma loaded_saved_entry_trace w d k v :
  saved w [current_project w] = Some (VDict d) →
  d !! k = Some v →
  ∃ written rest,
    trace (loaded project_extensions_impl w) =
      trace (switched project_extensions_impl w) ++
      stamp true ((EvWrite <$> written) ++
                  EvWrite "flamenco_manager.available_managers" :: rest) ∧
    Forall (λ name, name ∈ PROJECT_SPECIFIC_SIMPLE_PROPS) written ∧
    (∀ s f pm a b n,
       d !! "flamenco_manager_id" = Some (VStr s) →
       s ≠ "" →
       s ∈ manager_ids (saved_managers d) →
       d !! "flamenco_managers_settings" = Some (VDict f) →
       f !! s = Some (VDict pm) →
       pm !! "file_path" = Some (VStr a) →
       pm !! "output_path" = Some (VStr b) →
       pm !! "output_strip_components" = Some (VInt n) →
       rest = [EvWrite "flamenco_manager.manager"; EvWrite "flamenco_job_file_path";
               EvWrite "flamenco_job_output_path";
               EvWrite "flamenco_job_output_strip_components"]) ∧
    (∀ s,
       d !! "flamenco_manager_id" = Some (VStr s) →
       s ≠ "" →
       s ∉ manager_ids (saved_managers d) →
       rest = [EvLogWarning]).
Proof.
  intros Hd Hk. unfold loaded.
  rewrite (handle_project_update_saved_entry w d k v Hd Hk).
  destruct (restore_simple_props_trace d PROJECT_SPECIFIC_SIMPLE_PROPS
              (switched project_extensions_impl w)) as (Hl & written & Htw & Hw).
  fold (simple_props_restored d (switched project_extensions_impl w)) in Hl, Htw.
  change (project_settings_loading (switched project_extensions_impl w)) with true in *.
  set (W0 := simple_props_restored d (switched project_extensions_impl w)) in *.
  pose proof (restores_restore_manager (VDict d)
                (set_available_managers (saved_managers d) W0).1) as HR.
  rewrite <- restore_flamenco_settings_run in HR.
  destruct HR as (_ & _ & _ & _ & _ & _ & rest & Ht & He).
  cbn [set_available_managers update fst record_event set_prefs trace
       project_settings_loading] in Ht.
  rewrite Hl, Htw in Ht.
  exists written, rest.
  assert (Htrace : trace (restore_flamenco_settings (VDict d) W0).1 =
            trace (switched project_extensions_impl w) ++
            stamp true ((EvWrite <$> written) ++
                        EvWrite "flamenco_manager.available_managers" :: rest)).
  { rewrite Ht. unfold stamp. rewrite !fmap_app. cbn [fmap list_fmap].
    by rewrite <- !app_assoc. }
  split; [|split; [exact Hw|split]].
  - by destruct (restore_flamenco_settings (VDict d) W0) as [w' r].
  - intros s f pm a b n Hmid Hne Hin Hf Hs Ha Hb Hn.
    destruct (restore_flamenco_settings_saved d W0 s f pm a b n Hmid Hne Hin Hf Hs Ha Hb Hn)
      as (w' & Hrun & _ & _ & _ & _ & _ & Ht').
    rewrite Hrun in Htrace. cbn [fst] in Htrace. rewrite Ht', Htw, Hl in Htrace.
    rewrite <- app_assoc in Htrace. apply app_inv_head in Htrace.
    unfold stamp in Htrace. rewrite <- fmap_app in Htrace.
    apply (stamp_inj true) in Htrace. apply app_inv_head in Htrace.
    by injection Htrace as <-.
  - intros s Hmid Hne Hnot.
    rewrite (restore_flamenco_settings_not_found d W0 (VStr s) Hmid (truthy_str s Hne)
               (enum_set_not_member _ s Hnot)) in Htrace.
    cbn [log_warning set_available_managers update fst record_event set_prefs trace
         project_settings_loading] in Htrace.
    rewrite Htw, Hl in Htrace. rewrite <- !app_assoc in Htrace.
    apply app_inv_head in Htrace.
    change (?l ++ [(true, ?e1)] ++ [(true, ?e2)]) with (l ++ stamp true [e1; e2]) in Htrace.
    unfold stamp in Htrace. rewrite <- fmap_app in Htrace.
    apply (stamp_inj true) in Htrace. apply app_inv_head in Htrace.
    by injection Htrace as <-.
Qed.

(** ** Properties of [handle_project_update] *)

(** C9: every run of [handle_project_update] adds to the history, all of
    it under a true loading flag and in this order: the clearing of the
    [project_extensions] memo table, the deactivation of Attract and of
    Flamenco, the query of the current project's extensions, the
    activation of exactly the modules among the two that the answer
    names, and only then the events of restoring the saved settings;
    the flag is false again afterwards. And the saved settings are
    restored: without an entry for the project the only write is that of
    the empty managers list; with a non-empty entry the saved simple
    properties are written first, then the saved managers list, and,
    when the saved manager is offered and its three settings are saved,
    the manager and the three settings, in this order, which end up
    with their saved values. *)
Theorem handle_project_update_order w :
  ∃ restore_events,
    trace (loaded project_extensions_impl w) =
      trace w ++
      stamp true
        ([EvCacheClear; EvDeactivate Attract; EvDeactivate Flamenco;
          EvProjectExtensions (current_project w)] ++
         (if decide ("attract" ∈ project_extensions_impl (current_project w))
          then [EvActivate Attract] else []) ++
         (if decide ("flamenco" ∈ project_extensions_impl (current_project w))
          then [EvActivate Flamenco] else []) ++
         restore_events) ∧
    Forall is_restore_event restore_events ∧
    attract_active (loaded project_extensions_impl w) =
      bool_decide ("attract" ∈ project_extensions_impl (current_project w)) ∧
    flamenco_active (loaded project_extensions_impl w) =
      bool_decide ("flamenco" ∈ project_extensions_impl (current_project w)) ∧
    project_settings_loading (loaded project_extensions_impl w) = false ∧
    (no_saved_entry w →
       restore_events = [EvWrite "flamenco_manager.available_managers"] ∧
       available_managers (flamenco_manager (prefs (loaded project_extensions_impl w))) =
         VList []) ∧
    (∀ d k v,
       saved w [current_project w] = Some (VDict d) →
       d !! k = Some v →
       ∃ written rest,
         restore_events =
           (EvWrite <$> written) ++
           EvWrite "flamenco_manager.available_managers" :: rest ∧
         Forall (λ name, name ∈ PROJECT_SPECIFIC_SIMPLE_PROPS) written ∧
         (∀ name x,
            name ∈ PROJECT_SPECIFIC_SIMPLE_PROPS →
            d !! name = Some x →
            is_Some (attrs (prefs w) !! name) →
            attrs (prefs (loaded project_extensions_impl w)) !! name = Some x) ∧
         available_managers (flamenco_manager (prefs (loaded project_extensions_impl w))) =
           saved_managers d ∧
         (∀ s f pm a b n,
            d !! "flamenco_manager_id" = Some (VStr s) →
            s ≠ "" →
            s ∈ manager_ids (saved_managers d) →
            d !! "flamenco_managers_settings" = Some (VDict f) →
            f !! s = Some (VDict pm) →
            pm !! "file_path" = Some (VStr a) →
            pm !! "output_path" = Some (VStr b) →
            pm !! "output_strip_components" = Some (VInt n) →
            rest = [EvWrite "flamenco_manager.manager"; EvWrite "flamenco_job_file_path";
                    EvWrite "flamenco_job_output_path";
                    EvWrite "flamenco_job_output_strip_components"] ∧
            manager (flamenco_manager (prefs (loaded project_extensions_impl w))) = s ∧
            flamenco_job_file_path (prefs (loaded project_extensions_impl w)) = a ∧
            flamenco_job_output_path (prefs (loaded project_extensions_impl w)) = b ∧
            flamenco_job_output_strip_components (prefs (loaded project_extensions_impl w)) =
              Z.to_N n)).
Proof.
  pose proof (restores_load_project_settings (current_project w)
                (switched project_extensions_impl w)) as H.
  assert (Hl : loaded project_extensions_impl w =
               set_loading false
                 (load_project_settings (current_project w)
                    (switched project_extensions_impl w)).1).
  { unfold loaded. rewrite handle_project_update_run.
    by destruct (load_project_settings _ _). }
  destruct H as (_ & _ & Ha & Hf & _ & _ & evs & Ht & He).
  assert (Htrace : trace (loaded project_extensions_impl w) =
                   trace (switched project_extensions_impl w) ++ stamp true evs).
  { rewrite Hl. exact Ht. }
  exists evs.
  split; [|split; [exact He|split; [by rewrite Hl|split; [by rewrite Hl|split;
    [by rewrite Hl|split]]]]].
  - rewrite Htrace. unfold switched, stamp, switch_events, enabled_events. cbn [trace].
    by rewrite !fmap_app, <- !app_assoc.
  - intros Hno. split.
    + apply (stamp_inj true).
      apply (app_inv_head (trace (switched project_extensions_impl w))).
      rewrite <- Htrace. unfold loaded.
      by rewrite (handle_project_update_no_saved_entry w Hno).
    + unfold loaded. by rewrite (handle_project_update_no_saved_entry w Hno).
  - intros d k v Hd Hk.
    destruct (loaded_saved_entry_trace w d k v Hd Hk)
      as (written & rest & Ht' & Hw & Hcomplete & _).
    exists written, rest. split.
    { apply (stamp_inj true).
      apply (app_inv_head (trace (switched project_extensions_impl w))).
      by rewrite <- Htrace, Ht'. }
    split; [exact Hw|]. split.
    { intros name x Hname Hx [y Hy].
      rewrite (loaded_attrs w d k v name Hd Hk), Hx, Hy. by rewrite decide_True. }
    split.
    { destruct (loaded_flamenco w d k v Hd Hk) as (Hg & _). by rewrite Hg. }
    intros s f pm a b n Hmid Hne Hin Hfs Hs Hfp Hop Hsc.
    split; [by eapply Hcomplete|].
    by destruct (loaded_complete_settings w d s f pm a b n Hd Hmid Hne Hin Hfs Hs Hfp Hop Hsc)
      as (_ & ? & _ & ? & ? & ?).
Qed.

(** C6, as the code has it: when the current project has no entry, or an
    empty one, in the persisted mapping, [handle_project_update] returns
    with the list of available managers empty and with the simple
    properties and the three job path settings as they were. It assigns
    nothing to the manager enum, which keeps its position; but with no
    manager left to offer, the enum reads as the empty identifier, whatever
    manager it read as before. *)
Theorem load_without_saved_entry w :
  no_saved_entry w →
  outcome project_extensions_impl w = Ok tt ∧
  available_managers (flamenco_manager (prefs (loaded project_extensions_impl w))) = VList [] ∧
  attrs (prefs (loaded project_extensions_impl w)) = attrs (prefs w) ∧
  manager_index (flamenco_manager (prefs (loaded project_extensions_impl w))) =
    manager_index (flamenco_manager (prefs w)) ∧
  manager (flamenco_manager (prefs (loaded project_extensions_impl w))) = "" ∧
  paths_kept w (loaded project_extensions_impl w) ∧
  trace (loaded project_extensions_impl w) =
    trace w ++
    stamp true
      (switch_events (current_project w) (project_extensions_impl (current_project w)) ++
       [EvWrite "flamenco_manager.available_managers"]).
Proof.
  intros H. unfold outcome, loaded.
  rewrite (handle_project_update_no_saved_entry w H).
  repeat split; try done.
  - by apply enum_get_no_managers.
  - cbn [set_available_managers update fst set_loading record_event set_prefs trace
         project_settings_loading switched].
    unfold stamp. by rewrite fmap_app, <- app_assoc.
Qed.

(** C3, as the code has it: when the saved entry of the current project
    names a manager, by a non-empty id, that is not among the managers
    restored from that entry, [handle_project_update] returns normally.
    After the switch of extensions it writes simple properties and the
    list of available managers, then logs the warning, and that is all:
    the three job path settings keep their values, the restored list of
    managers stays in place and the loading flag is false again. The
    manager enum is never assigned and keeps its position. So it does
    not read as the saved manager; it reads as the manager at that
    position of the restored list, when there is one, and as the empty
    identifier when the restored list is empty. *)
Theorem load_with_stale_manager w d s :
  saved w [current_project w] = Some (VDict d) →
  d !! "flamenco_manager_id" = Some (VStr s) →
  s ≠ "" →
  s ∉ manager_ids (saved_managers d) →
  outcome project_extensions_impl w = Ok tt ∧
  manager_index (flamenco_manager (prefs (loaded project_extensions_impl w))) =
    manager_index (flamenco_manager (prefs w)) ∧
  manager (flamenco_manager (prefs (loaded project_extensions_impl w))) ≠ s ∧
  (∀ m, manager_ids (saved_managers d) !! manager_index (flamenco_manager (prefs w)) = Some m →
        manager (flamenco_manager (prefs (loaded project_extensions_impl w))) = m) ∧
  (truthy (saved_managers d) = false →
   manager (flamenco_manager (prefs (loaded project_extensions_impl w))) = "") ∧
  available_managers (flamenco_manager (prefs (loaded project_extensions_impl w))) =
    saved_managers d ∧
  paths_kept w (loaded project_extensions_impl w) ∧
  (∃ written,
     trace (loaded project_extensions_impl w) =
       trace w ++
       stamp true
         (switch_events (current_project w) (project_extensions_impl (current_project w)) ++
          (EvWrite <$> written) ++
          [EvWrite "flamenco_manager.available_managers"; EvLogWarning]) ∧
     Forall (λ name, name ∈ PROJECT_SPECIFIC_SIMPLE_PROPS) written) ∧
  project_settings_loading (loaded project_extensions_impl w) = false.
Proof.
  intros Hd Hmid Hs Hnot.
  destruct (loaded_saved_entry_trace w d _ _ Hd Hmid)
    as (written & rest & Ht & Hw & _ & Hwarn).
  rewrite (Hwarn s Hmid Hs Hnot) in Ht.
  destruct (loaded_flamenco w d _ _ Hd Hmid) as (Hg & Hfp & Hop & Hsc).
  destruct (loaded_idprops w) as (_ & _ & Hl & _).
  assert (Hsel : selection d = None).
  { unfold selection, saved_manager_id. rewrite Hmid. cbn [from_option id].
    rewrite (truthy_str s Hs). by apply enum_set_not_member. }
  assert (Hset : selected_settings d = None).
  { unfold selected_settings. by rewrite Hsel. }
  rewrite Hset in Hfp, Hop, Hsc. rewrite Hsel in Hg. cbn [from_option id] in Hg.
  unfold manager. rewrite Hg. cbn [manager_index available_managers].
  split.
  { unfold outcome. rewrite (handle_project_update_saved_entry w d _ _ Hd Hmid).
    by rewrite (restore_flamenco_settings_not_found d _ (VStr s) Hmid
                  (truthy_str s Hs) (enum_set_not_member _ s Hnot)). }
  split; [done|]. split.
  { unfold enum_get. intros Heq.
    destruct (manager_ids (saved_managers d) !! _) as [m|] eqn:Hm; simpl in Heq.
    - subst m. destruct Hnot. by eapply list_elem_of_lookup_2.
    - by subst s. }
  split; [intros m Hm; unfold enum_get; by rewrite Hm|].
  split; [by apply enum_get_no_managers|].
  split; [done|]. split; [done|]. split; [|done].
  exists written. split; [|done]. rewrite Ht.
  unfold switched, stamp. cbn [trace]. by rewrite !fmap_app, <- !app_assoc.
Qed.

(** C5: when the saved manager gets selected but the saved entry has no
    ['flamenco_managers_settings'], or that mapping has no key for the
    manager, [handle_project_update] returns normally and the three job
    path settings keep the values they had. *)
Theorem load_without_manager_settings w d s :
  saved w [current_project w] = Some (VDict d) →
  d !! "flamenco_manager_id" = Some (VStr s) →
  s ≠ "" →
  s ∈ manager_ids (saved_managers d) →
  (d !! "flamenco_managers_settings" = None ∨
   ∃ f, d !! "flamenco_managers_settings" = Some (VDict f) ∧ f !! s = None) →
  outcome project_extensions_impl w = Ok tt ∧
  manager (flamenco_manager (prefs (loaded project_extensions_impl w))) = s ∧
  paths_kept w (loaded project_extensions_impl w).
Proof.
  intros Hd Hmid Hs Hin Hf. unfold outcome, loaded.
  rewrite (handle_project_update_saved_entry w d _ _ Hd Hmid).
  destruct (restore_flamenco_settings_unsaved d
              (simple_props_restored d (switched project_extensions_impl w))
              s Hmid Hs Hin Hf)
    as (w' & -> & Hm & _ & Hf' & Ho' & Hc').
  destruct (simple_props_restored_paths d w) as ((Hf0 & Ho0 & Hc0) & _).
  unfold paths_kept. cbn [fst snd set_loading prefs]. repeat split; congruence.
Qed.

(** C1: let [store] run for project P and persist the mapping, and let
    [handle_project_update] run later with P the current project again
    and the persisted mapping as [store] left it (the live values may
    have changed in between). Then every simple property ends up with
    the value [store] persisted for it and, when a manager was selected
    at the time of the [store], that manager is selected again and the
    job file path, job output path and strip count end up with the
    values [store] persisted for that manager. *)
Theorem store_then_load_round_trip w w1 w2 :
  project_settings_loading w = false →
  store w = Ok w1 →
  project_settings w2 = project_settings w1 →
  current_project w2 = current_project w →
  (∀ name, name ∈ PROJECT_SPECIFIC_SIMPLE_PROPS → is_Some (attrs (prefs w2) !! name)) →
  (∀ name, name ∈ PROJECT_SPECIFIC_SIMPLE_PROPS →
     is_Some (saved w1 [current_project w; name]) ∧
     attrs (prefs (loaded project_extensions_impl w2)) !! name = saved w1 [current_project w; name]) ∧
  (manager_selected w →
     outcome project_extensions_impl w2 = Ok tt ∧
     manager (flamenco_manager (prefs (loaded project_extensions_impl w2))) = current_manager w ∧
     saved w1 [current_project w; "flamenco_managers_settings"; current_manager w;
               "file_path"] =
       Some (VStr (flamenco_job_file_path (prefs (loaded project_extensions_impl w2)))) ∧
     saved w1 [current_project w; "flamenco_managers_settings"; current_manager w;
               "output_path"] =
       Some (VStr (flamenco_job_output_path (prefs (loaded project_extensions_impl w2)))) ∧
     saved w1 [current_project w; "flamenco_managers_settings"; current_manager w;
               "output_strip_components"] =
       Some (VInt (Z.of_N (flamenco_job_output_strip_components
                             (prefs (loaded project_extensions_impl w2)))))).
Proof.
  intros Hl Hstore Hsame Hproj Hattrs.
  destruct (store_inv _ _ Hl Hstore)
    as (all & ps & ps' & pppm & Hall & Hps & Hsp & Hpppm & Hw1).
  destruct (store_simple_props_inv _ _ _ _ Hsp) as (ps'' & Heq & Hout & Hin).
  injection Heq as <-.
  set (pm := manager_settings (prefs w)) in *.
  set (f := <[current_manager w := pm]> pppm) in *.
  set (d := <["flamenco_managers_settings" := VDict f]>
              (<["flamenco_available_managers" :=
                   available_managers (flamenco_manager (prefs w))]>
               (<["flamenco_manager_id" := VStr (current_manager w)]> ps'))) in *.
  assert (Hsaved1 : ∀ path, saved w1 (current_project w :: path) = lookup_path (VDict d) path).
  { intros path. rewrite Hw1, saved_set_idprop. simpl. by rewrite lookup_insert_eq. }
  assert (Hsaved2 : saved w2 [current_project w2] = Some (VDict d)).
  { unfold saved. rewrite Hsame, Hproj. apply (Hsaved1 []). }
  assert (Hmid : d !! "flamenco_manager_id" = Some (VStr (current_manager w))).
  { unfold d. by walk. }
  assert (Hmngrs : saved_managers d = available_managers (flamenco_manager (prefs w))).
  { unfold saved_managers, d. by walk. }
  split.
  - intros name Hname. rewrite Hsaved1.
    destruct (simple_prop_not_flamenco_key name Hname) as (? & ? & ?).
    destruct (Hin name Hname) as [Hps' [v Hv]].
    assert (Hd : d !! name = Some v).
    { unfold d. rewrite !lookup_insert_ne by done. congruence. }
    simpl. rewrite Hd. split; [by eexists|].
    rewrite (loaded_attrs w2 d _ _ name Hsaved2 Hmid), Hd.
    destruct (Hattrs name Hname) as [y ->]. by rewrite decide_True.
  - intros [Hne Hin'].
    destruct (loaded_complete_settings w2 d (current_manager w) f
                (<["file_path" := VStr (flamenco_job_file_path (prefs w))]>
                 (<["output_path" := VStr (flamenco_job_output_path (prefs w))]>
                  (<["output_strip_components" :=
                       VInt (Z.of_N (flamenco_job_output_strip_components (prefs w)))]> ∅)))
                (flamenco_job_file_path (prefs w))
                (flamenco_job_output_path (prefs w))
                (Z.of_N (flamenco_job_output_strip_components (prefs w))))
      as (Hok & Hm & _ & Hfp & Hop & Hsc).
    + done.
    + done.
    + done.
    + by rewrite Hmngrs.
    + unfold d. by walk.
    + unfold f. by walk.
    + by walk.
    + by walk.
    + by walk.
    + rewrite !Hsaved1, Hm, Hfp, Hop, Hsc, N2Z.id.
      repeat split; try done. all: unfold d, f, pm, manager_settings; by walk.
Qed.

(** C4, with a managers list: when the entry saved for "projA" holds, next to the
    manager id "m1" and the settings of "m1" of the example, a list of
    available managers in which "m1" occurs, [handle_project_update]
    with "projA" the current project selects "m1" and sets the job file
    path to "/a", the job output path to "/b" and the strip count to 2. *)
Theorem load_example_with_managers_list w mngrs :
  current_project w = "projA" →
  project_settings w =
    Some (VDict {[ "projA" :=
            VDict (<["flamenco_available_managers" := mngrs]> example_entry) ]}) →
  "m1" ∈ manager_ids mngrs →
  outcome project_extensions_impl w = Ok tt ∧
  manager (flamenco_manager (prefs (loaded project_extensions_impl w))) = "m1" ∧
  flamenco_job_file_path (prefs (loaded project_extensions_impl w)) = "/a" ∧
  flamenco_job_output_path (prefs (loaded project_extensions_impl w)) = "/b" ∧
  flamenco_job_output_strip_components (prefs (loaded project_extensions_impl w)) = 2%N.
Proof.
  intros Hp Hs Hin.
  set (d := <["flamenco_available_managers" := mngrs]> example_entry).
  assert (Hd : saved w [current_project w] = Some (VDict d)).
  { unfold saved. rewrite Hs, Hp. simpl. by rewrite lookup_singleton_eq. }
  assert (Hmid : d !! "flamenco_manager_id" = Some (VStr "m1")).
  { unfold d, example_entry. by walk. }
  destruct (loaded_complete_settings w d "m1"
              {[ "m1" := VDict (<["file_path" := VStr "/a"]>
                                (<["output_path" := VStr "/b"]>
                                 {[ "output_strip_components" := VInt 2 ]})) ]}
              (<["file_path" := VStr "/a"]>
               (<["output_path" := VStr "/b"]>
                {[ "output_strip_components" := VInt 2 ]}))
              "/a" "/b" 2%Z)
    as (Hok & Hm & _ & Hfp & Hop & Hsc); done.
Qed.

(** ** More on [handle_project_update] *)

(** X3: [handle_project_update] never writes an ID property of the
    preferences object, the persisted ['project_settings'] among them,
    never changes the current project and never touches the status of
    the manager group, whether it returns or raises. What it does write
    outside the declared properties is the managers list, an ID property
    of the manager group. *)
Theorem handle_project_update_keeps_persisted w :
  idprops (prefs (loaded project_extensions_impl w)) = idprops (prefs w) ∧
  current_project (loaded project_extensions_impl w) = current_project w ∧
  status (flamenco_manager (prefs (loaded project_extensions_impl w))) =
    status (flamenco_manager (prefs w)).
Proof. destruct (loaded_idprops w) as (Hi & Hp & _ & Hs). by repeat split. Qed.


(** X5: when the saved manager gets selected and a mapping [pm] is saved
    for it, the three job path settings are assigned in the order file
    path, output path, strip count. The first one that [pm] lacks ends
    the run with a [KeyError], the first one whose saved value is not of
    the property's type (a string, a string, an integer) ends it with a
    [TypeError], and nothing catches either: the settings before it have
    their saved values, a negative strip count being stored as 0, and it
    and those after it keep the values they had. *)
Theorem load_with_partial_manager_settings w d s f pm :
  saved w [current_project w] = Some (VDict d) →
  d !! "flamenco_manager_id" = Some (VStr s) →
  s ≠ "" →
  s ∈ manager_ids (saved_managers d) →
  d !! "flamenco_managers_settings" = Some (VDict f) →
  f !! s = Some (VDict pm) →
  outcome project_extensions_impl w =
    match pm !! "file_path" with
    | Some (VStr _) =>
        match pm !! "output_path" with
        | Some (VStr _) =>
            match pm !! "output_strip_components" with
            | Some (VInt _) => Ok tt
            | Some _ => Raise TypeError
            | None => Raise KeyError
            end
        | Some _ => Raise TypeError
        | None => Raise KeyError
        end
    | Some _ => Raise TypeError
    | None => Raise KeyError
    end ∧
  manager (flamenco_manager (prefs (loaded project_extensions_impl w))) = s ∧
  flamenco_job_file_path (prefs (loaded project_extensions_impl w)) =
    match pm !! "file_path" with
    | Some (VStr a) => a
    | _ => flamenco_job_file_path (prefs w)
    end ∧
  flamenco_job_output_path (prefs (loaded project_extensions_impl w)) =
    match pm !! "file_path", pm !! "output_path" with
    | Some (VStr _), Some (VStr b) => b
    | _, _ => flamenco_job_output_path (prefs w)
    end ∧
  flamenco_job_output_strip_components (prefs (loaded project_extensions_impl w)) =
    match pm !! "file_path", pm !! "output_path", pm !! "output_strip_components" with
    | Some (VStr _), Some (VStr _), Some (VInt n) => Z.to_N n
    | _, _, _ => flamenco_job_output_strip_components (prefs w)
    end.
Proof.
  intros Hd Hmid Hs Hin Hf Hpm. unfold outcome, loaded.
  rewrite (handle_project_update_saved_entry w d _ _ Hd Hmid).
  destruct (restore_flamenco_settings_selected d
              (simple_props_restored d (switched project_extensions_impl w))
              s f (VDict pm) Hmid Hs Hin Hf Hpm)
    as (w' & -> & Hm & _ & _ & _ & (Hfp & Hop & Hsc) & _).
  destruct (simple_props_restored_paths d w) as ((Hfp0 & Hop0 & Hsc0) & _).
  destruct (restore_manager_settings_run pm w') as (Hr & Hfp' & Hop' & Hsc' & Hm' & _).
  destruct (restore_manager_settings (VDict pm) w') as [w'' r].
  cbn [fst snd set_loading prefs] in *.
  rewrite Hr, Hfp', Hop', Hsc', Hm', Hm, Hfp, Hop, Hsc, Hfp0, Hop0, Hsc0.
  by repeat split.
Qed.

(** Loading an entry of the form [store] writes, for preferences [p0]
    with a manager selected: the manager, the list and the three paths of
    [p0] come back. *)
Lemma loaded_stored_entry w p0 ps' pppm d :
  d = <["flamenco_managers_settings" :=
          VDict (<[manager (flamenco_manager p0) := manager_settings p0]> pppm)]>
        (<["flamenco_available_managers" := available_managers (flamenco_manager p0)]>
         (<["flamenco_manager_id" := VStr (manager (flamenco_manager p0))]> ps')) →
  saved w [current_project w] = Some (VDict d) →
  manager (flamenco_manager p0) ≠ "" →
  manager (flamenco_manager p0) ∈ manager_ids (available_managers (flamenco_manager p0)) →
  outcome project_extensions_impl w = Ok tt ∧
  manager (flamenco_manager (prefs (loaded project_extensions_impl w))) =
    manager (flamenco_manager p0) ∧
  available_managers (flamenco_manager (prefs (loaded project_extensions_impl w))) =
    available_managers (flamenco_manager p0) ∧
  flamenco_job_file_path (prefs (loaded project_extensions_impl w)) =
    flamenco_job_file_path p0 ∧
  flamenco_job_output_path (prefs (loaded project_extensions_impl w)) =
    flamenco_job_output_path p0 ∧
  flamenco_job_output_strip_components (prefs (loaded project_extensions_impl w)) =
    flamenco_job_output_strip_components p0.
Proof.
  intros -> Hd Hne Hin.
  set (d := <["flamenco_managers_settings" := _]> _) in *.
  assert (Hmid : d !! "flamenco_manager_id" = Some (VStr (manager (flamenco_manager p0)))).
  { unfold d. by walk. }
  assert (Hmngrs : saved_managers d = available_managers (flamenco_manager p0)).
  { unfold saved_managers, d. by walk. }
  destruct (loaded_complete_settings w d (manager (flamenco_manager p0))
              (<[manager (flamenco_manager p0) := manager_settings p0]> pppm)
              (<["file_path" := VStr (flamenco_job_file_path p0)]>
               (<["output_path" := VStr (flamenco_job_output_path p0)]>
                (<["output_strip_components" :=
                     VInt (Z.of_N (flamenco_job_output_strip_components p0))]> ∅)))
              (flamenco_job_file_path p0) (flamenco_job_output_path p0)
              (Z.of_N (flamenco_job_output_strip_components p0)))
    as (Hok & Hm & Hav & Hfp & Hop & Hsc).
  - done.
  - done.
  - done.
  - by rewrite Hmngrs.
  - unfold d. by walk.
  - unfold manager_settings. by walk.
  - by walk.
  - by walk.
  - by walk.
  - by rewrite Hm, Hav, Hfp, Hop, Hsc, Hmngrs, N2Z.id.
Qed.

(** X6: after a [store] for project P with a manager selected, a run of
    [handle_project_update] for P on the same persisted mapping (the live
    values may have changed in between) leaves preferences that a further
    [store] persists as the very same mapping: saving what was just
    loaded changes nothing. *)
Theorem load_then_store_keeps_persisted w w1 w2 :
  project_settings_loading w = false →
  store w = Ok w1 →
  manager_selected w →
  project_settings w2 = project_settings w1 →
  current_project w2 = current_project w →
  (∀ name, name ∈ PROJECT_SPECIFIC_SIMPLE_PROPS → is_Some (attrs (prefs w2) !! name)) →
  ∃ w3, store (loaded project_extensions_impl w2) = Ok w3 ∧
        project_settings w3 = project_settings w1.
Proof.
  intros Hl Hstore [Hne Hin'] Hsame Hproj Hattrs.
  destruct (store_inv _ _ Hl Hstore)
    as (all & ps & ps' & pppm & Hall & Hps & Hsp & Hpppm & Hw1).
  destruct (store_simple_props_inv _ _ _ _ Hsp) as (ps'' & Heq & Hout & Hin).
  injection Heq as <-.
  set (f := <[current_manager w := manager_settings (prefs w)]> pppm) in *.
  set (d := <["flamenco_managers_settings" := VDict f]>
              (<["flamenco_available_managers" :=
                   available_managers (flamenco_manager (prefs w))]>
               (<["flamenco_manager_id" := VStr (current_manager w)]> ps'))) in *.
  set (all' := <[current_project w := VDict d]> all) in *.
  assert (Hps1 : project_settings w1 = Some (VDict all')).
  { rewrite Hw1. unfold project_settings. simpl. by rewrite lookup_insert_eq. }
  assert (Hd : saved w2 [current_project w2] = Some (VDict d)).
  { unfold saved. rewrite Hsame, Hps1, Hproj. simpl. unfold all'.
    by rewrite lookup_insert_eq. }
  destruct (loaded_idprops w2) as (Hi & Hp & Hfl & _).
  destruct (loaded_stored_entry w2 (prefs w) ps' pppm d eq_refl Hd Hne Hin')
    as (_ & Hm & Hav & Hfp & Hop & Hsc).
  assert (Hmid : d !! "flamenco_manager_id" = Some (VStr (current_manager w))).
  { unfold d. by walk. }
  set (W := loaded project_extensions_impl w2) in *.
  assert (Hget : prefs_get (prefs W) "project_settings" (VDict ∅) = VDict all').
  { unfold prefs_get. rewrite Hi. fold (project_settings w2). by rewrite Hsame, Hps1. }
  assert (Hentry : default (VDict ∅) (all' !! current_project W) = VDict d).
  { rewrite Hp, Hproj. unfold all'. by rewrite lookup_insert_eq. }
  assert (Hprops : store_simple_props (prefs W) PROJECT_SPECIFIC_SIMPLE_PROPS (VDict d)
                   = Ok (VDict d)).
  { apply store_simple_props_fixed. intros name Hname.
    destruct (simple_prop_not_flamenco_key name Hname) as (? & ? & ?).
    destruct (Hin name Hname) as [Hname' [x Hx]].
    assert (Hdn : d !! name = Some x).
    { unfold d. rewrite !lookup_insert_ne by done. congruence. }
    unfold W. rewrite (loaded_attrs w2 d _ _ name Hd Hmid), Hdn.
    destruct (Hattrs name Hname) as [y ->].
    rewrite decide_True by done. split; [done|by eexists]. }
  assert (Hfms : default (VDict ∅) (d !! "flamenco_managers_settings") = VDict f).
  { unfold d. by walk. }
  eexists. split; [exact (store_run W all' d d f Hfl Hget Hentry Hprops Hfms)|].
  rewrite Hps1. unfold project_settings. simpl. rewrite lookup_insert_eq.
  unfold current_manager, current_project, manager_settings. fold W.
  fold (current_project W). rewrite Hm, Hav, Hfp, Hop, Hsc, Hp, Hproj.
  fold (manager_settings (prefs w)). fold (current_manager w).
  unfold f at 1. rewrite insert_insert_eq. fold f.
  unfold d at 1. rewrite flamenco_keys_rewritten. fold d.
  unfold all'. by rewrite insert_insert_eq.
Qed.

(** X7: settings are kept per project. After a [store] for project A with
    a manager selected, a [store] for another project B, whatever B's
    manager and live values, leaves A's entry alone: back on A,
    [handle_project_update] returns with A's simple properties, manager,
    list of available managers and three job path settings as they were
    when A was stored. *)
Theorem switch_away_and_back wA w1 wB w2 wA' :
  project_settings_loading wA = false →
  store wA = Ok w1 →
  manager_selected wA →
  project_settings wB = project_settings w1 →
  current_project wB ≠ current_project wA →
  project_settings_loading wB = false →
  store wB = Ok w2 →
  project_settings wA' = project_settings w2 →
  current_project wA' = current_project wA →
  (∀ name, name ∈ PROJECT_SPECIFIC_SIMPLE_PROPS → is_Some (attrs (prefs wA') !! name)) →
  outcome project_extensions_impl wA' = Ok tt ∧
  (∀ name, name ∈ PROJECT_SPECIFIC_SIMPLE_PROPS →
     attrs (prefs (loaded project_extensions_impl wA')) !! name =
     attrs (prefs wA) !! name) ∧
  manager (flamenco_manager (prefs (loaded project_extensions_impl wA'))) =
    manager (flamenco_manager (prefs wA)) ∧
  available_managers (flamenco_manager (prefs (loaded project_extensions_impl wA'))) =
    available_managers (flamenco_manager (prefs wA)) ∧
  paths_kept wA (loaded project_extensions_impl wA').
Proof.
  intros Hl Hstore [Hne Hin'] HsameB HprojB HlB HstoreB HsameA HprojA Hattrs.
  destruct (store_inv _ _ Hl Hstore)
    as (all & ps & ps' & pppm & Hall & Hps & Hsp & Hpppm & Hw1).
  destruct (store_simple_props_inv _ _ _ _ Hsp) as (ps'' & Heq & Hout & Hin).
  injection Heq as <-.
  set (d := <["flamenco_managers_settings" :=
                VDict (<[current_manager wA := manager_settings (prefs wA)]> pppm)]>
              (<["flamenco_available_managers" :=
                   available_managers (flamenco_manager (prefs wA))]>
               (<["flamenco_manager_id" := VStr (current_manager wA)]> ps'))) in *.
  set (all1 := <[current_project wA := VDict d]> all) in *.
  assert (Hps1 : project_settings w1 = Some (VDict all1)).
  { rewrite Hw1. unfold project_settings. simpl. by rewrite lookup_insert_eq. }
  destruct (store_inv _ _ HlB HstoreB)
    as (allB & psB & psB' & pppmB & HallB & _ & _ & _ & Hw2).
  assert (allB = all1) as ->.
  { unfold prefs_get in HallB. fold (project_settings wB) in HallB.
    rewrite HsameB, Hps1 in HallB. simpl in HallB. by injection HallB. }
  assert (Hd : saved wA' [current_project wA'] = Some (VDict d)).
  { unfold saved. rewrite HsameA, Hw2. unfold project_settings. simpl.
    rewrite lookup_insert_eq. simpl. rewrite HprojA.
    rewrite lookup_insert_ne by done. unfold all1. by rewrite lookup_insert_eq. }
  destruct (loaded_stored_entry wA' (prefs wA) ps' pppm d eq_refl Hd Hne Hin')
    as (Hout' & Hm & Hav & Hfp & Hop & Hsc).
  assert (Hmid : d !! "flamenco_manager_id" = Some (VStr (current_manager wA))).
  { unfold d. by walk. }
  split; [done|]. split; [|by repeat split].
  intros name Hname.
  destruct (simple_prop_not_flamenco_key name Hname) as (? & ? & ?).
  destruct (Hin name Hname) as [Hname' [x Hx]].
  assert (Hdn : d !! name = Some x).
  { unfold d. rewrite !lookup_insert_ne by done. congruence. }
  rewrite (loaded_attrs wA' d _ _ name Hd Hmid), Hdn.
  destruct (Hattrs name Hname) as [y ->].
  by rewrite decide_True, Hx by done.
Qed.


(** X12: running [handle_project_update] a second time changes nothing in
    the preferences, when the current project has no entry or a mapping
    as its entry in the persisted settings. *)
Theorem handle_project_update_twice w :
  (no_saved_entry w ∨ ∃ d, saved w [current_project w] = Some (VDict d)) →
  prefs (loaded project_extensions_impl (loaded project_extensions_impl w)) =
  prefs (loaded project_extensions_impl w).
Proof.
  intros H.
  destruct (loaded_idprops w) as (Hi & Hp & _).
  assert (Hno : no_saved_entry w ∨
                ∃ d k v, saved w [current_project w] = Some (VDict d) ∧ d !! k = Some v).
  { destruct H as [?|[d Hd]]; [by left|].
    destruct (map_choose_or_empty d) as [(k & v & Hk)| ->]; [right; by exists d, k, v|].
    left. right. apply saved_entry_inv in Hd as (all & Hall & Hentry).
    exists all. split; [done|by right]. }
  clear H. destruct Hno as [Hno|(d & k & v & Hd & Hk)].
  - assert (Hno' : no_saved_entry (loaded project_extensions_impl w)).
    { unfold no_saved_entry, project_settings in *. by rewrite Hi, Hp. }
    unfold loaded at 1.
    rewrite (handle_project_update_no_saved_entry _ Hno').
    unfold loaded.
    rewrite (handle_project_update_no_saved_entry _ Hno).
    by apply prefs_eq.
  - assert (Hd' : saved (loaded project_extensions_impl w)
                    [current_project (loaded project_extensions_impl w)]
                  = Some (VDict d)).
    { unfold saved, project_settings in *. by rewrite Hi, Hp. }
    destruct (loaded_flamenco w d k v Hd Hk) as (Hg & Hfp & Hop & Hsc).
    destruct (loaded_flamenco _ d k v Hd' Hk) as (Hg' & Hfp' & Hop' & Hsc').
    destruct (loaded_idprops (loaded project_extensions_impl w)) as (Hi' & Hp' & _).
    apply prefs_eq; try done.
    + apply map_eq. intros name.
      rewrite (loaded_attrs _ d k v name Hd' Hk).
      rewrite (loaded_attrs w d k v name Hd Hk).
      destruct (d !! name) as [x|], (attrs (prefs w) !! name) as [y|]; try done.
      by destruct (decide (name ∈ PROJECT_SPECIFIC_SIMPLE_PROPS)).
    + rewrite Hg', Hg. cbn [manager_index status]. by destruct (selection d).
    + rewrite Hfp', Hfp. destruct (selected_settings d) as [pm|]; [|done].
      unfold file_path_after. by destruct (pm !! "file_path") as [[]|].
    + rewrite Hop', Hop. destruct (selected_settings d) as [pm|]; [|done].
      unfold output_path_after.
      by destruct (pm !! "file_path") as [[]|], (pm !! "output_path") as [[]|].
    + rewrite Hsc', Hsc. destruct (selected_settings d) as [pm|]; [|done].
      unfold strip_components_after.
      by destruct (pm !! "file_path") as [[]|], (pm !! "output_path") as [[]|],
        (pm !! "output_strip_components") as [[]|].
Qed.

End Load.

(** ** The manager selector and the fetch of managers *)

Lemma mapM_manager_item_length l items :
  mapM manager_item l = Some items → length items = length l.
Proof.
  intros H. apply mapM_Some_1 in H. symmetry. by eapply Forall2_length.
Qed.

(** X8: whenever [available_managers] gives the selector its items, there
    is at least one: the single item with the empty identifier when the
    list of managers is empty or missing, and one item for each manager
    of the list otherwise. *)
Theorem available_managers_never_empty mngrs items :
  available_managers_cb mngrs = Some items →
  items ≠ [] ∧
  (truthy mngrs = false → items = [no_managers_item]) ∧
  (truthy mngrs = true → ∃ l, mngrs = VList l ∧ length items = length l).
Proof.
  unfold available_managers_cb. destruct (truthy mngrs) eqn:Ht; simpl.
  - destruct mngrs as [| | |l|]; try done. intros H.
    pose proof (mapM_manager_item_length _ _ H) as Hlen.
    split; [|split; [done|by exists l]].
    intros ->. destruct l; [|done]. by unfold truthy in Ht.
  - intros [= <-]. by repeat split.
Qed.


Lemma manager_as_dict_run d :
  manager_as_dict (VDict d) =
  match d !! "_id", d !! "name" with
  | Some i, Some n => Ok (VDict (<["_id" := i]> {[ "name" := n ]}))
  | _, _ => Raise KeyError
  end.
Proof.
  unfold manager_as_dict. cbn [py_getitem].
  destruct (d !! "_id"); [|done]. cbn [mbind result_bind].
  by destruct (d !! "name").
Qed.






Lemma mapM_manager_as_dict_lacking l :
  Forall (λ p, ∃ d, p = VDict d) l →
  Exists lacks_id_or_name l →
  mapM manager_as_dict l = Raise KeyError.
Proof.
  induction l as [|p l IH]; intros Hall Hex; [by apply Exists_nil in Hex|].
  apply Forall_cons in Hall as [[d ->] Hall]. cbn [mapM].
  rewrite manager_as_dict_run.
  destruct (d !! "_id") as [i|] eqn:Hi; [|done].
  destruct (d !! "name") as [n|] eqn:Hn; [|done].
  cbn [mbind result_bind]. rewrite IH; [done|done|].
  apply Exists_cons in Hex as [(d' & Heq & Hlack)|Hex]; [|done].
  injection Heq as <-. destruct Hlack; congruence.
Qed.

(** X10: the list of available managers is replaced as a whole or not at
    all: when one of the fetched managers lacks its id or its name, the
    fetch ends with a [KeyError], the list and everything else in the
    preferences are as they were, except for the status, which was set to
    ['FETCHING'] before the answer was looked at and is left there. *)
Theorem fetch_with_incomplete_manager managers l w :
  py_getitem managers "_items" = Ok (VList l) →
  Forall (λ p, ∃ d, p = VDict d) l →
  Exists lacks_id_or_name l →
  (FLAMENCO_OT_fmanagers_async_execute true (Ok managers) w).2 = Raise KeyError ∧
  prefs (FLAMENCO_OT_fmanagers_async_execute true (Ok managers) w).1 =
    set_flamenco_manager
      {| manager_index := manager_index (flamenco_manager (prefs w));
         status := "FETCHING";
         available_managers := available_managers (flamenco_manager (prefs w)) |}
      (prefs w).
Proof.
  intros Hitems Hall Hex.
  assert (Hlist : managers_as_list managers = Raise KeyError).
  { unfold managers_as_list. rewrite Hitems. cbn [mbind result_bind].
    by rewrite (mapM_manager_as_dict_lacking l Hall Hex). }
  unfold FLAMENCO_OT_fmanagers_async_execute. cbn [negb].
  unfold bind, lift. cbn [set_status update]. by rewrite Hlist.
Qed.

(** ** The warning *)

Lemma warnings_record_event e w :
  warnings (record_event e w) =
  warnings w + (if decide (e = EvLogWarning) then 1 else 0).
Proof.
  unfold warnings. cbn [record_event trace]. rewrite filter_app, length_app.
  f_equal. rewrite filter_cons, filter_nil. cbn [snd].
  by destruct (decide (e = EvLogWarning)).
Qed.

Lemma warnings_write name p w :
  warnings (record_event (EvWrite name) (set_prefs p w)) = warnings w.
Proof.
  rewrite warnings_record_event, decide_False by done.
  unfold warnings. cbn [set_prefs trace]. lia.
Qed.

#[global] Instance same_warnings_preorder : PreOrder same_warnings.
Proof.
  split; [done|]. unfold same_warnings. intros w1 w2 w3 H1 H2. congruence.
Qed.

Lemma set_manager_warnings v w : warnings (set_manager v w).1 = warnings w.
Proof.
  unfold set_manager. repeat case_match; cbn [fst].
  all: first [reflexivity | apply warnings_write].
Qed.

Lemma restore_manager_settings_warnings pmv w :
  warnings (restore_manager_settings pmv w).1 = warnings w.
Proof.
  apply (preserves_restore_manager_settings same_warnings).
  all: by assignment ltac:(apply warnings_write).
Qed.

Lemma restore_simple_props_warnings ps names w :
  warnings (restore_simple_props ps names w).1 = warnings w.
Proof.
  apply (preserves_restore_simple_props same_warnings).
  intros name v w0. apply warnings_write.
Qed.

Lemma restore_flamenco_settings_warnings d w :
  warnings (restore_flamenco_settings (VDict d) w).1 =
  warnings w + (if selection_refused d then 1 else 0).
Proof.
  unfold selection_refused, saved_manager_id.
  rewrite restore_flamenco_settings_run.
  set (wA := (set_available_managers (saved_managers d) w).1).
  assert (HA : available_managers (flamenco_manager (prefs wA)) = saved_managers d) by done.
  assert (HwA : warnings wA = warnings w) by apply warnings_write.
  clearbody wA. rewrite <- HA, <- HwA. clear HA HwA.
  remember (restore_manager (VDict d) wA) as R eqn:HR.
  unfold restore_manager, bind, lift, py_get, try_except_else in HR.
  destruct (truthy (default VNone (d !! "flamenco_manager_id"))) eqn:Ht; cbn [andb].
  - destruct (enum_set (available_managers (flamenco_manager (prefs wA)))
                (default VNone (d !! "flamenco_manager_id"))) as [i|] eqn:He.
    + rewrite bool_decide_eq_false_2 by done.
      pose proof (set_manager_warnings (default VNone (d !! "flamenco_manager_id")) wA)
        as HwS.
      destruct (set_manager_selected wA _ i He) as (s & wS & _ & _ & HS & _).
      rewrite HS in HR, HwS. cbn [fst] in HwS. unfold py_getitem in HR.
      destruct (d !! "flamenco_managers_settings") as [fms|];
        cbn [mbind result_bind] in HR; [|subst R; simpl; lia].
      destruct fms as [| | | |f]; try (subst R; simpl; lia).
      destruct (f !! s) as [pmv|]; [|subst R; simpl; lia].
      subst R. rewrite restore_manager_settings_warnings. lia.
    + rewrite bool_decide_eq_true_2 by done.
      rewrite set_manager_refused in HR by exact He.
      rewrite decide_True in HR by done.
      subst R. cbn [log_warning update fst]. rewrite warnings_record_event.
      by rewrite decide_True.
  - assert (He : enum_set (available_managers (flamenco_manager (prefs wA))) VNone = None)
      by done.
    rewrite set_manager_refused in HR by exact He. subst R. simpl. lia.
Qed.

Section Warning.

Variable project_extensions_impl : string → gset string.

Lemma switched_warnings w :
  warnings (switched project_extensions_impl w) = warnings w.
Proof.
  unfold warnings, switched, switch_events, enabled_events, stamp. cbn [trace].
  rewrite filter_app, length_app.
  match goal with
  | |- _ + length ?l = _ => assert (Hnone : l = []); [|rewrite Hnone; simpl; lia]
  end.
  destruct (decide ("attract" ∈ _)), (decide ("flamenco" ∈ _)).
  all: cbn [fmap list_fmap app].
  all: by rewrite ?filter_cons_False, filter_nil by done.
Qed.

(** X13: [handle_project_update] logs its warning in one case only. With
    no entry for the current project it logs none; with a non-empty
    mapping as the entry it logs exactly one when the entry names, by a
    truthy id, a manager that the managers restored from the entry do
    not offer, and none otherwise. *)
Theorem warning_only_for_refused_manager w refused :
  (no_saved_entry w ∧ refused = false) ∨
  (∃ d k v, saved w [current_project w] = Some (VDict d) ∧ d !! k = Some v ∧
            refused = selection_refused d) →
  warnings (loaded project_extensions_impl w) = warnings w + (if refused then 1 else 0).
Proof.
  intros [[Hno ->]|(d & k & v & Hd & Hk & ->)].
  - unfold loaded.
    rewrite (handle_project_update_no_saved_entry project_extensions_impl w Hno).
    cbn [fst set_available_managers update].
    change (warnings (set_loading false ?x)) with (warnings x).
    rewrite warnings_write, switched_warnings. lia.
  - unfold loaded.
    rewrite (handle_project_update_saved_entry project_extensions_impl w d k v Hd Hk).
    pose proof (restore_flamenco_settings_warnings d
                  (simple_props_restored d (switched project_extensions_impl w))) as H.
    destruct (restore_flamenco_settings _ _) as [w' r].
    cbn [fst] in *. change (warnings (set_loading false w')) with (warnings w').
    rewrite H. f_equal.
    pose proof (restore_simple_props_warnings (VDict d) PROJECT_SPECIFIC_SIMPLE_PROPS
                  (switched project_extensions_impl w)) as Hs.
    rewrite restore_simple_props_run in Hs. cbn [fst] in Hs.
    unfold simple_props_restored. by rewrite Hs, switched_warnings.
Qed.

End Warning.

(** ** Concrete runs *)

(** C4 does not hold as it stands: on the persisted state of the
    example, with "projA" the current project, [handle_project_update]
    does not leave the manager at "m1" with the paths "/a" and "/b" and
    the strip count 2. *)
Lemma load_example_without_managers_list :
  ¬ (manager (flamenco_manager (prefs (loaded flamenco_only example_world))) = "m1" ∧
     flamenco_job_file_path (prefs (loaded flamenco_only example_world)) = "/a" ∧
     flamenco_job_output_path (prefs (loaded flamenco_only example_world)) = "/b" ∧
     flamenco_job_output_strip_components (prefs (loaded flamenco_only example_world))
       = 2%N).
Proof. vm_compute. intros [H _]. discriminate H. Qed.

(** What it does instead: the managers list is restored as empty, the
    selection of "m1" is refused and a warning logged, no manager is
    selected and the paths stay as they were. *)
Example load_example_without_managers_list_run :
  outcome flamenco_only example_world = Ok tt ∧
  flamenco_manager (prefs (loaded flamenco_only example_world)) =
    {| manager_index := 0; status := "NONE"; available_managers := VList [] |} ∧
  manager (flamenco_manager (prefs (loaded flamenco_only example_world))) = "" ∧
  flamenco_job_file_path (prefs (loaded flamenco_only example_world)) =
    "/render/_flamenco/storage" ∧
  trace (loaded flamenco_only example_world) =
    stamp true [EvCacheClear; EvDeactivate Attract; EvDeactivate Flamenco;
                EvProjectExtensions "projA"; EvActivate Flamenco;
                EvWrite "flamenco_manager.available_managers"; EvLogWarning].
Proof. vm_compute. done. Qed.

(** C6 does not hold as it stands: someone with the manager "m1" selected
    who comes to a project without an entry is left with no manager
    selected. *)
Lemma load_without_saved_entry_deselects :
  no_saved_entry working_world ∧
  manager (flamenco_manager (prefs working_world)) = "m1" ∧
  manager (flamenco_manager (prefs (loaded flamenco_only working_world))) ≠
    manager (flamenco_manager (prefs working_world)).
Proof. split; [by left|]. split; [reflexivity|]. vm_compute. discriminate. Qed.

(** C3 does not hold as it stands: the entry saved for "projA" names
    "m9", which the two managers saved with it do not offer; someone who
    comes to "projA" with the second of their two managers selected is
    left, not without a manager, but with the second of the two restored
    ones. *)
Lemma load_with_stale_manager_selects_another :
  saved stale_world [current_project stale_world] = Some (VDict stale_entry) ∧
  stale_entry !! "flamenco_manager_id" = Some (VStr "m9") ∧
  ("m9" ∉ manager_ids (saved_managers stale_entry)) ∧
  manager (flamenco_manager (prefs stale_world)) = "m2" ∧
  manager (flamenco_manager (prefs (loaded flamenco_only stale_world))) = "m4" ∧
  manager (flamenco_manager (prefs (loaded flamenco_only stale_world))) ≠ "".
Proof.
  split; [vm_compute; reflexivity|]. split; [vm_compute; reflexivity|].
  split; [apply (bool_decide_unpack _); vm_compute; exact I|].
  split; [vm_compute; reflexivity|]. split; [vm_compute; reflexivity|].
  vm_compute. discriminate.
Qed.

(** A saved strip count below 0 is stored as 0. *)
Example negative_strip_count_run :
  outcome flamenco_only world_with_negative_strip_count = Ok tt ∧
  flamenco_job_output_strip_components (prefs world_with_negative_strip_count) = 3%N ∧
  flamenco_job_output_strip_components
    (prefs (loaded flamenco_only world_with_negative_strip_count)) = 0%N.
Proof. vm_compute. done. Qed.

(** ** The theorems at concrete inputs *)

Lemma store_noop_while_loading_witness :
  store (set_loading true working_world) = Ok (set_loading true working_world).
Proof. apply store_noop_while_loading. reflexivity. Defined.

Lemma working_world_stored : store working_world = Ok (stored working_world).
Proof. vm_compute. reflexivity. Qed.

Lemma busy_world_stored : store busy_world = Ok (stored busy_world).
Proof. vm_compute. reflexivity. Qed.

Lemma store_frame_witness :
  (∀ pid, pid ≠ current_project busy_world →
     saved (stored busy_world) [pid] = saved busy_world [pid]) ∧
  (∀ m, m ≠ current_manager busy_world →
     saved (stored busy_world)
       [current_project busy_world; "flamenco_managers_settings"; m] =
     saved busy_world
       [current_project busy_world; "flamenco_managers_settings"; m]) ∧
  (∀ k, k ∉ stored_keys →
     saved (stored busy_world) [current_project busy_world; k] =
     saved busy_world [current_project busy_world; k]) ∧
  (∀ k, k ≠ "project_settings" →
     idprops (prefs (stored busy_world)) !! k = idprops (prefs busy_world) !! k) ∧
  live_values_kept busy_world (stored busy_world).
Proof.
  apply (store_frame busy_world (stored busy_world)).
  - reflexivity.
  - apply busy_world_stored.
Defined.

(** What that frame keeps in the busy world: the entry of "projB", the
    settings of "m2", the notes and the other ID property are all
    there before the [store], and the [store] does write. *)
Example store_frame_run :
  saved busy_world ["projB"; "flamenco_manager_id"] = Some (VStr "m7") ∧
  saved busy_world ["projA"; "flamenco_managers_settings"; "m2"] =
    Some (job_settings "/two/jobs" "/two/frames" 2) ∧
  saved busy_world ["projA"; "notes"] = Some (VStr "kept") ∧
  idprops (prefs busy_world) !! "last_visit" = Some (VInt 7) ∧
  saved busy_world ["projA"; "flamenco_managers_settings"; "m1"] = None ∧
  saved (stored busy_world) ["projA"; "flamenco_managers_settings"; "m1"] =
    Some (job_settings "/shared/jobs" "/shared/frames" 3) ∧
  saved (stored busy_world) ["projB"; "flamenco_manager_id"] = Some (VStr "m7") ∧
  saved (stored busy_world) ["projA"; "flamenco_managers_settings"; "m2"] =
    Some (job_settings "/two/jobs" "/two/frames" 2) ∧
  saved (stored busy_world) ["projA"; "notes"] = Some (VStr "kept") ∧
  idprops (prefs (stored busy_world)) !! "last_visit" = Some (VInt 7).
Proof. vm_compute. done. Qed.

Lemma store_idempotent_witness :
  ∃ w2, store (stored working_world) = Ok w2 ∧
        project_settings w2 = project_settings (stored working_world).
Proof.
  apply (store_idempotent working_world (stored working_world)).
  apply working_world_stored.
Defined.

Lemma default_world_storable : storable (fresh_world (default_prefs "projB")).
Proof.
  split.
  - intros name Hname. apply list_elem_of_singleton in Hname as ->. by eexists.
  - exists ∅, ∅, ∅. by repeat split.
Qed.

Lemma store_without_manager_witness :
  ∃ w',
    store (fresh_world (default_prefs "projB")) = Ok w' ∧
    saved w' ["projB"; "flamenco_manager_id"] = Some (VStr "") ∧
    saved w' ["projB"; "flamenco_managers_settings"; ""]
      = Some (manager_settings (default_prefs "projB")) ∧
    saved w' ["projB"; "flamenco_managers_settings"; ""; "file_path"]
      = Some (VStr "/render/_flamenco/storage") ∧
    saved w' ["projB"; "flamenco_managers_settings"; ""; "output_path"]
      = Some (VStr "/render/_flamenco/output") ∧
    saved w' ["projB"; "flamenco_managers_settings"; ""; "output_strip_components"]
      = Some (VInt 0).
Proof.
  apply (store_without_manager (fresh_world (default_prefs "projB"))).
  - reflexivity.
  - apply default_world_storable.
  - reflexivity.
Defined.

Lemma load_without_saved_entry_witness :
  outcome flamenco_only working_world = Ok tt ∧
  available_managers (flamenco_manager (prefs (loaded flamenco_only working_world))) =
    VList [] ∧
  attrs (prefs (loaded flamenco_only working_world)) = attrs (prefs working_world) ∧
  manager_index (flamenco_manager (prefs (loaded flamenco_only working_world))) =
    manager_index (flamenco_manager (prefs working_world)) ∧
  manager (flamenco_manager (prefs (loaded flamenco_only working_world))) = "" ∧
  paths_kept working_world (loaded flamenco_only working_world) ∧
  trace (loaded flamenco_only working_world) =
    trace working_world ++
    stamp true
      (switch_events (current_project working_world)
         (flamenco_only (current_project working_world)) ++
       [EvWrite "flamenco_manager.available_managers"]).
Proof.
  apply (load_without_saved_entry flamenco_only working_world).
  left. reflexivity.
Defined.

Lemma load_with_stale_manager_witness :
  outcome flamenco_only stale_world = Ok tt ∧
  manager_index (flamenco_manager (prefs (loaded flamenco_only stale_world))) =
    manager_index (flamenco_manager (prefs stale_world)) ∧
  manager (flamenco_manager (prefs (loaded flamenco_only stale_world))) ≠ "m9" ∧
  (∀ m, manager_ids (saved_managers stale_entry)
          !! manager_index (flamenco_manager (prefs stale_world)) = Some m →
        manager (flamenco_manager (prefs (loaded flamenco_only stale_world))) = m) ∧
  (truthy (saved_managers stale_entry) = false →
   manager (flamenco_manager (prefs (loaded flamenco_only stale_world))) = "") ∧
  available_managers (flamenco_manager (prefs (loaded flamenco_only stale_world))) =
    saved_managers stale_entry ∧
  paths_kept stale_world (loaded flamenco_only stale_world) ∧
  (∃ written,
     trace (loaded flamenco_only stale_world) =
       trace stale_world ++
       stamp true
         (switch_events (current_project stale_world)
            (flamenco_only (current_project stale_world)) ++
          (EvWrite <$> written) ++
          [EvWrite "flamenco_manager.available_managers"; EvLogWarning]) ∧
     Forall (λ name, name ∈ PROJECT_SPECIFIC_SIMPLE_PROPS) written) ∧
  project_settings_loading (loaded flamenco_only stale_world) = false.
Proof.
  apply (load_with_stale_manager flamenco_only stale_world stale_entry "m9").
  - vm_compute. reflexivity.
  - vm_compute. reflexivity.
  - discriminate.
  - apply (bool_decide_unpack _). vm_compute. exact I.
Defined.

Lemma load_without_manager_settings_witness :
  outcome flamenco_only world_without_settings = Ok tt ∧
  manager (flamenco_manager (prefs (loaded flamenco_only world_without_settings))) = "m1" ∧
  paths_kept world_without_settings (loaded flamenco_only world_without_settings).
Proof.
  apply (load_without_manager_settings flamenco_only world_without_settings
           entry_without_settings "m1").
  - vm_compute. reflexivity.
  - vm_compute. reflexivity.
  - discriminate.
  - apply (bool_decide_unpack _). vm_compute. exact I.
  - left. vm_compute. reflexivity.
Defined.

Lemma load_example_with_managers_list_witness :
  outcome flamenco_only example_world_with_managers = Ok tt ∧
  manager (flamenco_manager (prefs (loaded flamenco_only example_world_with_managers)))
    = "m1" ∧
  flamenco_job_file_path (prefs (loaded flamenco_only example_world_with_managers))
    = "/a" ∧
  flamenco_job_output_path (prefs (loaded flamenco_only example_world_with_managers))
    = "/b" ∧
  flamenco_job_output_strip_components
    (prefs (loaded flamenco_only example_world_with_managers)) = 2%N.
Proof.
  apply (load_example_with_managers_list flamenco_only example_world_with_managers
           one_manager).
  - reflexivity.
  - vm_compute. reflexivity.
  - apply (bool_decide_unpack _). vm_compute. exact I.
Defined.

Lemma working_world_manager_selected : manager_selected working_world.
Proof.
  split; [discriminate|]. apply (bool_decide_unpack _). vm_compute. exact I.
Qed.

Lemma store_then_load_round_trip_witness :
  (∀ name, name ∈ PROJECT_SPECIFIC_SIMPLE_PROPS →
     is_Some (saved (stored working_world) [current_project working_world; name]) ∧
     attrs (prefs (loaded flamenco_only revisited_world)) !! name =
       saved (stored working_world) [current_project working_world; name]) ∧
  (manager_selected working_world →
     outcome flamenco_only revisited_world = Ok tt ∧
     manager (flamenco_manager (prefs (loaded flamenco_only revisited_world))) =
       current_manager working_world ∧
     saved (stored working_world)
       [current_project working_world; "flamenco_managers_settings";
        current_manager working_world; "file_path"] =
       Some (VStr (flamenco_job_file_path (prefs (loaded flamenco_only revisited_world)))) ∧
     saved (stored working_world)
       [current_project working_world; "flamenco_managers_settings";
        current_manager working_world; "output_path"] =
       Some (VStr (flamenco_job_output_path
                     (prefs (loaded flamenco_only revisited_world)))) ∧
     saved (stored working_world)
       [current_project working_world; "flamenco_managers_settings";
        current_manager working_world; "output_strip_components"] =
       Some (VInt (Z.of_N (flamenco_job_output_strip_components
                             (prefs (loaded flamenco_only revisited_world)))))).
Proof.
  apply (store_then_load_round_trip flamenco_only working_world (stored working_world)
           revisited_world).
  - reflexivity.
  - apply working_world_stored.
  - vm_compute. reflexivity.
  - reflexivity.
  - intros name Hname. apply list_elem_of_singleton in Hname as ->.
    vm_compute. by eexists.
Defined.

(** The round trip, run: after the [store] and the later load, the
    defaults have given way to what was stored. *)
Example round_trip_run :
  outcome flamenco_only revisited_world = Ok tt ∧
  attrs (prefs (loaded flamenco_only revisited_world)) !! "cloud_project_local_path" =
    Some (VStr "/home/me/projA") ∧
  manager (flamenco_manager (prefs (loaded flamenco_only revisited_world))) = "m1" ∧
  flamenco_job_file_path (prefs (loaded flamenco_only revisited_world)) =
    "/shared/jobs" ∧
  flamenco_job_output_path (prefs (loaded flamenco_only revisited_world)) =
    "/shared/frames" ∧
  flamenco_job_output_strip_components (prefs (loaded flamenco_only revisited_world)) =
    3%N ∧
  trace (loaded flamenco_only revisited_world) =
    stamp true [EvCacheClear; EvDeactivate Attract; EvDeactivate Flamenco;
                EvProjectExtensions "projA"; EvActivate Flamenco;
                EvWrite "cloud_project_local_path";
                EvWrite "flamenco_manager.available_managers";
                EvWrite "flamenco_manager.manager";
                EvWrite "flamenco_job_file_path"; EvWrite "flamenco_job_output_path";
                EvWrite "flamenco_job_output_strip_components"].
Proof. vm_compute. done. Qed.

Lemma handle_project_update_order_witness :
  ∃ restore_events,
    trace (loaded flamenco_only revisited_world) =
      trace revisited_world ++
      stamp true
        ([EvCacheClear; EvDeactivate Attract; EvDeactivate Flamenco;
          EvProjectExtensions (current_project revisited_world)] ++
         (if decide ("attract" ∈ flamenco_only (current_project revisited_world))
          then [EvActivate Attract] else []) ++
         (if decide ("flamenco" ∈ flamenco_only (current_project revisited_world))
          then [EvActivate Flamenco] else []) ++
         restore_events) ∧
    Forall is_restore_event restore_events ∧
    (∃ written,
       restore_events =
         (EvWrite <$> written) ++
         [EvWrite "flamenco_manager.available_managers";
          EvWrite "flamenco_manager.manager"; EvWrite "flamenco_job_file_path";
          EvWrite "flamenco_job_output_path";
          EvWrite "flamenco_job_output_strip_components"] ∧
       Forall (λ name, name ∈ PROJECT_SPECIFIC_SIMPLE_PROPS) written) ∧
    attrs (prefs (loaded flamenco_only revisited_world)) !! "cloud_project_local_path" =
      Some (VStr "/home/me/projA") ∧
    available_managers (flamenco_manager (prefs (loaded flamenco_only revisited_world))) =
      one_manager ∧
    manager (flamenco_manager (prefs (loaded flamenco_only revisited_world))) = "m1" ∧
    flamenco_job_file_path (prefs (loaded flamenco_only revisited_world)) =
      "/shared/jobs" ∧
    flamenco_job_output_path (prefs (loaded flamenco_only revisited_world)) =
      "/shared/frames" ∧
    flamenco_job_output_strip_components (prefs (loaded flamenco_only revisited_world)) =
      3%N.
Proof.
  destruct (handle_project_update_order flamenco_only revisited_world)
    as (evs & Ht & He & _ & _ & _ & _ & Hd).
  destruct (Hd (<["flamenco_managers_settings" :=
                    VDict {[ "m1" := job_settings "/shared/jobs" "/shared/frames" 3 ]}]>
                (<["flamenco_available_managers" := one_manager]>
                 (<["flamenco_manager_id" := VStr "m1"]>
                  {[ "cloud_project_local_path" := VStr "/home/me/projA" ]})))
              "flamenco_manager_id" (VStr "m1"))
    as (written & rest & Hevs & Hw & Hattrs & Hav & Hcomplete).
  { vm_compute. reflexivity. }
  { vm_compute. reflexivity. }
  destruct (Hcomplete "m1" {[ "m1" := job_settings "/shared/jobs" "/shared/frames" 3 ]}
              (<["file_path" := VStr "/shared/jobs"]>
               (<["output_path" := VStr "/shared/frames"]>
                {[ "output_strip_components" := VInt 3 ]}))
              "/shared/jobs" "/shared/frames" 3%Z)
    as (Hrest & Hm & Hfp & Hop & Hsc).
  { vm_compute. reflexivity. }
  { discriminate. }
  { apply (bool_decide_unpack _). vm_compute. exact I. }
  { vm_compute. reflexivity. }
  { vm_compute. reflexivity. }
  { vm_compute. reflexivity. }
  { vm_compute. reflexivity. }
  { vm_compute. reflexivity. }
  exists evs. split; [exact Ht|]. split; [exact He|]. split.
  { exists written. split; [by rewrite Hevs, Hrest|exact Hw]. }
  split.
  { apply (Hattrs "cloud_project_local_path").
    - apply list_elem_of_singleton. reflexivity.
    - vm_compute. reflexivity.
    - vm_compute. by eexists. }
  split; [exact Hav|]. by repeat split.
Defined.

(** ** The further theorems at concrete inputs *)

Lemma store_persists_live_values_witness :
  (∀ name, name ∈ PROJECT_SPECIFIC_SIMPLE_PROPS →
     is_Some (attrs (prefs working_world) !! name) ∧
     saved (stored working_world) [current_project working_world; name] =
       attrs (prefs working_world) !! name) ∧
  saved (stored working_world) [current_project working_world; "flamenco_manager_id"] =
    Some (VStr (current_manager working_world)) ∧
  saved (stored working_world)
    [current_project working_world; "flamenco_available_managers"] =
    Some (available_managers (flamenco_manager (prefs working_world))) ∧
  saved (stored working_world)
    [current_project working_world; "flamenco_managers_settings";
     current_manager working_world] =
    Some (manager_settings (prefs working_world)).
Proof.
  apply (store_persists_live_values working_world (stored working_world)).
  - reflexivity.
  - apply working_world_stored.
Defined.

Lemma store_without_simple_property_witness :
  store (fresh_world (declared_prefs "projA")) = Raise AttributeError.
Proof.
  apply (store_without_simple_property (fresh_world (declared_prefs "projA"))
           "cloud_project_local_path").
  - reflexivity.
  - apply list_elem_of_singleton. reflexivity.
  - vm_compute. reflexivity.
Defined.



Lemma world_with_ill_typed_settings_entry :
  saved world_with_ill_typed_settings [current_project world_with_ill_typed_settings] =
    Some (VDict entry_with_ill_typed_settings) ∧
  entry_with_ill_typed_settings !! "flamenco_manager_id" = Some (VStr "m1") ∧
  "m1" ∈ manager_ids (saved_managers entry_with_ill_typed_settings) ∧
  entry_with_ill_typed_settings !! "flamenco_managers_settings" =
    Some (VDict {[ "m1" := VDict (<["file_path" := VStr "/a"]>
                                  (<["output_path" := VInt 5]>
                                   {[ "output_strip_components" := VInt 2 ]})) ]}) ∧
  ({[ "m1" := VDict (<["file_path" := VStr "/a"]>
                     (<["output_path" := VInt 5]>
                      {[ "output_strip_components" := VInt 2 ]})) ]}
     : gmap string value) !! "m1" =
    Some (VDict (<["file_path" := VStr "/a"]>
                 (<["output_path" := VInt 5]>
                  {[ "output_strip_components" := VInt 2 ]}))).
Proof.
  split; [vm_compute; reflexivity|]. split; [vm_compute; reflexivity|].
  split; [apply (bool_decide_unpack _); vm_compute; exact I|].
  split; vm_compute; reflexivity.
Qed.

Lemma load_with_partial_manager_settings_witness :
  outcome flamenco_only world_with_ill_typed_settings = Raise TypeError ∧
  manager (flamenco_manager (prefs (loaded flamenco_only world_with_ill_typed_settings)))
    = "m1" ∧
  flamenco_job_file_path (prefs (loaded flamenco_only world_with_ill_typed_settings)) =
    "/a" ∧
  flamenco_job_output_path (prefs (loaded flamenco_only world_with_ill_typed_settings)) =
    "/render/_flamenco/output" ∧
  flamenco_job_output_strip_components
    (prefs (loaded flamenco_only world_with_ill_typed_settings)) = 0%N.
Proof.
  destruct world_with_ill_typed_settings_entry as (Hd & Hmid & Hin & Hf & Hpm).
  pose proof (load_with_partial_manager_settings flamenco_only
                world_with_ill_typed_settings entry_with_ill_typed_settings "m1" _ _
                Hd Hmid ltac:(discriminate) Hin Hf Hpm) as H.
  vm_compute in H. vm_compute. exact H.
Defined.

Lemma load_then_store_keeps_persisted_witness :
  ∃ w3, store (loaded flamenco_only revisited_world) = Ok w3 ∧
        project_settings w3 = project_settings (stored working_world).
Proof.
  apply (load_then_store_keeps_persisted flamenco_only working_world
           (stored working_world) revisited_world).
  - reflexivity.
  - apply working_world_stored.
  - apply working_world_manager_selected.
  - vm_compute. reflexivity.
  - reflexivity.
  - intros name Hname. apply list_elem_of_singleton in Hname as ->.
    vm_compute. by eexists.
Defined.

Lemma other_project_world_stored :
  store other_project_world = Ok (stored other_project_world).
Proof. vm_compute. reflexivity. Qed.

Lemma switch_away_and_back_witness :
  outcome flamenco_only returned_world = Ok tt ∧
  (∀ name, name ∈ PROJECT_SPECIFIC_SIMPLE_PROPS →
     attrs (prefs (loaded flamenco_only returned_world)) !! name =
     attrs (prefs working_world) !! name) ∧
  manager (flamenco_manager (prefs (loaded flamenco_only returned_world))) =
    manager (flamenco_manager (prefs working_world)) ∧
  available_managers (flamenco_manager (prefs (loaded flamenco_only returned_world))) =
    available_managers (flamenco_manager (prefs working_world)) ∧
  paths_kept working_world (loaded flamenco_only returned_world).
Proof.
  apply (switch_away_and_back flamenco_only working_world (stored working_world)
           other_project_world (stored other_project_world) returned_world).
  - reflexivity.
  - apply working_world_stored.
  - apply working_world_manager_selected.
  - vm_compute. reflexivity.
  - discriminate.
  - reflexivity.
  - apply other_project_world_stored.
  - vm_compute. reflexivity.
  - reflexivity.
  - intros name Hname. apply list_elem_of_singleton in Hname as ->.
    vm_compute. by eexists.
Defined.

Lemma available_managers_never_empty_witness :
  [("m1", "Manager One", "")] ≠ ([] : list enum_item) ∧
  (truthy one_manager = false → [("m1", "Manager One", "")] = [no_managers_item]) ∧
  (truthy one_manager = true →
   ∃ l, one_manager = VList l ∧ length [("m1", "Manager One", "") : enum_item] = length l).
Proof.
  apply (available_managers_never_empty one_manager [("m1", "Manager One", "")]).
  vm_compute. reflexivity.
Defined.



Lemma fetch_with_incomplete_manager_witness :
  (FLAMENCO_OT_fmanagers_async_execute true (Ok fetched_managers_nameless)
     working_world).2 = Raise KeyError ∧
  prefs (FLAMENCO_OT_fmanagers_async_execute true (Ok fetched_managers_nameless)
           working_world).1 =
    set_flamenco_manager
      {| manager_index := manager_index (flamenco_manager (prefs working_world));
         status := "FETCHING";
         available_managers := available_managers (flamenco_manager (prefs working_world)) |}
      (prefs working_world).
Proof.
  apply (fetch_with_incomplete_manager fetched_managers_nameless
           [VDict (<["_id" := VStr "m1"]> {[ "name" := VStr "Manager One" ]});
            VDict {[ "_id" := VStr "m2" ]}] working_world).
  - vm_compute. reflexivity.
  - repeat constructor; by eexists.
  - right. left. eexists. split; [reflexivity|]. right. vm_compute. reflexivity.
Defined.



Lemma handle_project_update_twice_witness :
  prefs (loaded flamenco_only (loaded flamenco_only world_with_partial_settings)) =
  prefs (loaded flamenco_only world_with_partial_settings).
Proof.
  apply (handle_project_update_twice flamenco_only world_with_partial_settings).
  right. exists entry_with_partial_settings. vm_compute. reflexivity.
Defined.

Lemma warning_only_for_refused_manager_witness :
  warnings (loaded flamenco_only example_world) = warnings example_world + 1.
Proof.
  apply (warning_only_for_refused_manager flamenco_only example_world true).
  right. exists example_entry, "flamenco_manager_id", (VStr "m1").
  split; [vm_compute; reflexivity|]. split; vm_compute; reflexivity.
Defined.
